(** * CyberdropBunkrDownloader: a shallow embedding of the resolution and
      download pipeline ([modules/utils.py], [modules/network.py],
      [modules/url_handler.py], [modules/downloader.py]).

    Python [str] values are sequences of Unicode code points and are modelled
    as lists of [N]; the interpreter's string methods that the program calls
    are written out in [Module Py].  Everything the program does to the
    outside (HTTP requests, console output, sleeping, files) is threaded
    through an explicit world in a state-and-exception monad: the world holds
    the files and the trace of the events so far, and a session is the
    environment's answer to a request given that trace.

    What the model leaves out: the case mapping of non-ASCII letters in
    [str.lower]; the [ValueError] of [urlparse] on a malformed bracketed host
    and the interpreter's limit on the digits of [int]; failures of the file
    system (every [open] succeeds, directories are implicit); the progress
    bar; and the interleavings of the worker pool, whose tasks run one after
    the other in the order of their submission. *)

From Stdlib Require Import ZArith NArith Ascii String Lia.
From stdpp Require Import base option list gmap pretty.

Local Open Scope Z_scope.

(** ** Python strings *)

Definition char := N.
Definition str := list N.

Module Py.

(** A literal of the source text (ASCII) as a Python string. *)
Definition py (s : string) : str :=
  List.map N_of_ascii (list_ascii_of_string s).

Definition eqb (a b : str) : bool := bool_decide (a = b).

(** [s.startswith(p)] *)
Fixpoint startswith (p s : str) : bool :=
  match p, s with
  | [], _ => true
  | _ :: _, [] => false
  | a :: p', b :: s' => N.eqb a b && startswith p' s'
  end.

(** [s.endswith(p)] *)
Definition endswith (p s : str) : bool := startswith (rev p) (rev s).

(** [s.find(sub)]: lowest index of an occurrence, [-1] when there is none. *)
Fixpoint find_from (sub s : str) (i : Z) : Z :=
  if startswith sub s then i
  else match s with
       | [] => -1
       | _ :: s' => find_from sub s' (i + 1)
       end.
Definition find (sub s : str) : Z := find_from sub s 0.

(** [s.rfind(sub)]: highest index of an occurrence, [-1] when there is none. *)
Fixpoint rfind_from (sub s : str) (i acc : Z) : Z :=
  let acc' := if startswith sub s then i else acc in
  match s with
  | [] => acc'
  | _ :: s' => rfind_from sub s' (i + 1) acc'
  end.
Definition rfind (sub s : str) : Z := rfind_from sub s 0 (-1).

(** [sub in s] *)
Definition contains (sub s : str) : bool := 0 <=? find sub s.

(** Slices [s[i:]] and [s[:i]] for an index [i >= 0]. *)
Definition slice_from (s : str) (i : Z) : str := drop (Z.to_nat i) s.
Definition slice_to (s : str) (i : Z) : str := take (Z.to_nat i) s.

(** [s.replace(old, new)]: every non-overlapping occurrence, left to right. *)
Fixpoint replace_go (old new s : str) (skip : nat) : str :=
  match s with
  | [] => []
  | c :: s' =>
      match skip with
      | S k => replace_go old new s' k
      | O => if startswith old s
             then new ++ replace_go old new s' (length old - 1)
             else c :: replace_go old new s' O
      end
  end.
Definition replace (old new s : str) : str :=
  match old with
  | [] => new ++ flat_map (fun c => c :: new) s
  | _ :: _ => replace_go old new s O
  end.

(** [s.split(sep)] for a non-empty separator. *)
Fixpoint split_go (sep s : str) (skip : nat) (cur : str) : list str :=
  match s with
  | [] => [rev cur]
  | c :: s' =>
      match skip with
      | S k => split_go sep s' k cur
      | O => if startswith sep s
             then rev cur :: split_go sep s' (length sep - 1) []
             else split_go sep s' O (c :: cur)
      end
  end.
Definition split (sep s : str) : list str := split_go sep s O [].

(** [s.partition(sep)] and [s.rpartition(sep)] *)
Definition partition (sep s : str) : str * str * str :=
  let i := find sep s in
  if i <? 0 then (s, [], [])
  else (slice_to s i, sep, slice_from s (i + Z.of_nat (length sep))).
Definition rpartition (sep s : str) : str * str * str :=
  let i := rfind sep s in
  if i <? 0 then ([], [], s)
  else (slice_to s i, sep, slice_from s (i + Z.of_nat (length sep))).

(** [str.isspace] on one code point (CPython's [_PyUnicode_IsWhitespace]). *)
Definition isspace (c : char) : bool :=
  ((9 <=? c) && (c <=? 13) || (28 <=? c) && (c <=? 32)
   || (c =? 133) || (c =? 160) || (c =? 5760)
   || (8192 <=? c) && (c <=? 8202)
   || (c =? 8232) || (c =? 8233) || (c =? 8239) || (c =? 8287)
   || (c =? 12288))%N.

(** [s.lstrip(chars)], [s.rstrip(chars)], [s.strip(chars)] with the set of
    stripped characters as a predicate; [strip] is [s.strip()]. *)
Fixpoint lstrip_with (P : char -> bool) (s : str) : str :=
  match s with
  | c :: s' => if P c then lstrip_with P s' else s
  | [] => []
  end.
Definition rstrip_with (P : char -> bool) (s : str) : str :=
  rev (lstrip_with P (rev s)).
Definition strip_with (P : char -> bool) (s : str) : str :=
  rstrip_with P (lstrip_with P s).
Definition strip (s : str) : str := strip_with isspace s.

(** [s.lower()].  Only the ASCII letters are mapped; the case mapping of the
    other Unicode letters is not modelled and they are left as they are. *)
Definition lower_char (c : char) : char :=
  if ((65 <=? c) && (c <=? 90))%N then (c + 32)%N else c.
Definition lower (s : str) : str := List.map lower_char s.

(** Line boundaries of [s.splitlines()]. *)
Definition is_linebreak (c : char) : bool :=
  ((10 <=? c) && (c <=? 13) || (28 <=? c) && (c <=? 30)
   || (c =? 133) || (c =? 8232) || (c =? 8233))%N.

(** [s.splitlines()]: a carriage return followed by a line feed is one
    boundary, and a final boundary does not open an empty last line.
    [after_cr] says that the previous character was a carriage return. *)
Fixpoint splitlines_go (s cur : str) (after_cr : bool) : list str :=
  match s with
  | [] => match cur with [] => [] | _ :: _ => [rev cur] end
  | c :: s' =>
      if (after_cr && (c =? 10)%N)%bool then splitlines_go s' cur false
      else if is_linebreak c then rev cur :: splitlines_go s' [] (c =? 13)%N
      else splitlines_go s' (c :: cur) false
  end.
Definition splitlines (s : str) : list str := splitlines_go s [] false.

(** The whitespace that [int] skips around a number: the ASCII characters
    that C's [isspace] accepts, and the Unicode whitespace beyond ASCII. *)
Definition is_int_space (c : char) : bool :=
  ((9 <=? c) && (c <=? 13) || (c =? 32) || (128 <=? c) && isspace c)%N.

(** [int(s)] for a string argument, [None] for [ValueError]: surrounding
    whitespace, an optional sign, then decimal digits that single
    underscores may separate.  The digits accepted are the ASCII ones (the
    only decimal digits of Latin-1, in which [requests] decodes header
    values); the interpreter's limit on the number of digits is not
    modelled. *)
Definition digit_val (c : char) : option Z :=
  if ((48 <=? c) && (c <=? 57))%N then Some (Z.of_N c - 48) else None.
Fixpoint int_digits (s : str) (prev_underscore : bool) (acc : Z) : option Z :=
  match s with
  | [] => if prev_underscore then None else Some acc
  | c :: s' =>
      if (c =? 95)%N then
        if prev_underscore then None else int_digits s' true acc
      else match digit_val c with
           | Some d => int_digits s' false (10 * acc + d)
           | None => None
           end
  end.
Definition int (s : str) : option Z :=
  let t := strip_with is_int_space s in
  let '(neg, body) :=
    match t with
    | c :: r => if (c =? 43)%N then (false, r)
                else if (c =? 45)%N then (true, r) else (false, t)
    | [] => (false, t)
    end in
  match body with
  | [] => None
  | c :: _ =>
      if (c =? 95)%N then None
      else (fun v => if neg : bool then - v else v) <$> int_digits body false 0
  end.

(** [str(n)] for an integer, as an f-string renders it. *)
Definition of_Z (n : Z) : str := py (pretty n).

End Py.

(** ** The standard library's path and URL functions

    [os.path] is the POSIX flavour ([posixpath]); [urllib.parse.urlparse]
    follows CPython 3.12.  [urlparse] is modelled on the URLs it accepts: the
    [ValueError] it raises for a host with unbalanced square brackets is not
    part of the model. *)

Module PosixPath.
Import Py.

(** [os.path.basename(p)] *)
Definition basename (p : str) : str :=
  let i := rfind (py "/") p + 1 in
  slice_from p i.

(** The loop of [genericpath._splitext] that skips leading dots: is there a
    character other than a dot between the start of the file name and the
    last dot? *)
Fixpoint has_non_dot (seg : str) : bool :=
  match seg with
  | [] => false
  | c :: seg' => if (c =? 46)%N then has_non_dot seg' else true
  end.

(** [os.path.splitext(p)] *)
Definition splitext (p : str) : str * str :=
  let sepIndex := rfind (py "/") p in
  let dotIndex := rfind (py ".") p in
  if (sepIndex <? dotIndex)
     && has_non_dot (slice_to (slice_from p (sepIndex + 1))
                              (dotIndex - (sepIndex + 1)))
  then (slice_to p dotIndex, slice_from p dotIndex)
  else (p, []).

(** [os.path.join(a, b)] *)
Definition join (a b : str) : str :=
  if startswith (py "/") b then b
  else if Py.eqb a [] || endswith (py "/") a then a ++ b
  else a ++ py "/" ++ b.

End PosixPath.

Module UrlParse.
Import Py.

Record ParseResult := {
  scheme : str; netloc : str; path : str;
  params : str; query : str; fragment : str
}.

Definition is_ascii_alpha (c : char) : bool :=
  ((65 <=? c) && (c <=? 90) || (97 <=? c) && (c <=? 122))%N.
Definition is_scheme_char (c : char) : bool :=
  (is_ascii_alpha c || (48 <=? c) && (c <=? 57)
   || (c =? 43) || (c =? 45) || (c =? 46))%N.

Definition uses_params : list str :=
  [ []; py "ftp"; py "hdl"; py "prospero"; py "http"; py "imap"; py "https";
    py "shttp"; py "rtsp"; py "rtspu"; py "sip"; py "sips"; py "mms";
    py "sftp"; py "tel" ].

(** [_splitnetloc(url, 2)]: the authority runs up to the first of [/?#]. *)
Fixpoint splitnetloc (rest : str) : str * str :=
  match rest with
  | [] => ([], [])
  | c :: rest' =>
      if ((c =? 47) || (c =? 63) || (c =? 35))%N then ([], rest)
      else let '(n, u) := splitnetloc rest' in (c :: n, u)
  end.

(** [url.split(sep, 1)] when [sep in url], else the URL and nothing. *)
Definition split_once (sep url : str) : str * str :=
  if contains sep url
  then let '(a, _, b) := partition sep url in (a, b)
  else (url, []).

(** [urlsplit(url)]: scheme, netloc, path, query, fragment. *)
Definition urlsplit (url : str) : str * str * str * str * str :=
  let url := lstrip_with (fun c => (c <=? 32)%N) url in
  let url := replace [10%N] [] (replace [13%N] [] (replace [9%N] [] url)) in
  let i := find (py ":") url in
  let '(scheme, url) :=
    match url with
    | c :: _ =>
        if (0 <? i) && is_ascii_alpha c
           && forallb is_scheme_char (slice_to url i)
        then (lower (slice_to url i), slice_from url (i + 1))
        else ([], url)
    | [] => ([], url)
    end in
  let '(netloc, url) :=
    if startswith (py "//") url then splitnetloc (slice_from url 2)
    else ([], url) in
  let '(url, fragment) := split_once (py "#") url in
  let '(url, query) := split_once (py "?") url in
  (scheme, netloc, url, query, fragment).

(** [_splitparams(url)], called when [';' in url]. *)
Definition splitparams (url : str) : str * str :=
  if contains (py "/") url then
    let start := rfind (py "/") url in
    let j := find (py ";") (slice_from url start) in
    if j <? 0 then (url, [])
    else (slice_to url (start + j), slice_from url (start + j + 1))
  else
    let i := find (py ";") url in
    (slice_to url i, slice_from url (i + 1)).

(** [urlparse(url)] *)
Definition urlparse (url : str) : ParseResult :=
  let '(scheme, netloc, url, query, fragment) := urlsplit url in
  let '(url, params) :=
    if bool_decide (scheme ∈ uses_params) && contains (py ";") url
    then splitparams url else (url, []) in
  {| scheme := scheme; netloc := netloc; path := url;
     params := params; query := query; fragment := fragment |}.

(** The [hostname] property of a parse result ([None] when there is none). *)
Definition hostname (r : ParseResult) : option str :=
  let '(_, _, hostinfo) := rpartition (py "@") (netloc r) in
  let '(_, have_open_br, bracketed) := partition (py "[") hostinfo in
  let host :=
    match have_open_br with
    | _ :: _ => let '(h, _, _) := partition (py "]") bracketed in h
    | [] => let '(h, _, _) := partition (py ":") hostinfo in h
    end in
  match host with
  | [] => None
  | _ :: _ =>
      let '(h, percent, zone) := partition (py "%") host in
      Some (lower h ++ percent ++ zone)
  end.

End UrlParse.

(** ** Exceptions, the world and the monad *)

(** The exception classes that matter to the program's handlers.  All of them
    derive from [Exception]; [RequestException] stands for the whole
    [requests.RequestException] family (timeouts, connection and protocol
    errors). *)
Inductive exn_class :=
| RequestException | JSONDecodeError | KeyError | TypeError | OSError
| OtherException.

Record exn := Exn { exn_kind : exn_class; exn_msg : str }.

Definition is_RequestException (e : exn) : bool :=
  match exn_kind e with RequestException => true | _ => false end.
Definition is_JSONDecodeError (e : exn) : bool :=
  match exn_kind e with JSONDecodeError => true | _ => false end.

Inductive result (A : Type) :=
| Ok (a : A)
| Raise (e : exn).
Arguments Ok {A} a.
Arguments Raise {A} e.

(** A parsed element as the program sees it through [BeautifulSoup]: its tag
    name, the tokens of its [class] attribute, its other attributes and its
    text.  A parsed document is the list of its elements in document order,
    which is the order [find] and [find_all] search in. *)
Record Tag := {
  tag_name : str;
  tag_class : list str;
  tag_attrs : list (str * str);
  tag_text : str
}.
Definition Soup := list Tag.

(** What [json.loads] makes of an API answer.  An object is a dictionary (its
    keys are distinct); field values other than strings are outside the
    model, and so are the details of the documents that are not objects. *)
Inductive JSON :=
| JObject (fields : list (str * str))
| JNotObject.

(** An HTTP response, with the views of its body that the program takes: the
    parsed page, the parsed API answer (or the exception of [json.loads]) and
    the streamed chunks, after which the transfer may fail. *)
Record Response := {
  status_code : Z;
  resp_url : str;
  content_length : option str;
  resp_soup : Soup;
  resp_json : result JSON;
  resp_chunks : list (list N);
  resp_stream_error : option exn
}.

(** Everything observable that the program does, in program order. *)
Inductive event :=
| EvGet (url : str)                      (* session.get(url, ...) *)
| EvPrint (line : str)                   (* print(line) *)
| EvSleep (seconds : Z)                  (* time.sleep(seconds) *)
| EvCreate (path : str)                  (* open(path, "w") or "wb" *)
| EvWrite (path : str) (data : list N)   (* f.write(data), file opened "wb" *)
| EvAppend (path : str) (data : list N). (* f.write(data), file opened "a" *)

(** The files (directories are not represented: every directory the program
    needs exists) and the trace of events so far.  A text file holds the code
    points written to it. *)
Record World := {
  fs : gmap str (list N);
  trace : list event
}.

(** A [requests.Session] is the environment's side of the HTTP exchange: what
    a GET of a URL answers (a response, or an exception) given everything
    that happened before. *)
Definition Session := list event -> str -> result Response.

Definition M (A : Type) : Type := World -> result A * World.

#[global] Instance M_ret : MRet M := fun A a w => (Ok a, w).
#[global] Instance M_bind : MBind M := fun A B f m w =>
  match m w with
  | (Ok a, w') => f a w'
  | (Raise e, w') => (Raise e, w')
  end.

Definition raise {A} (e : exn) : M A := fun w => (Raise e, w).

(** [try: m except ...]: the outcome of [m] as a value. *)
Definition catch {A} (m : M A) : M (result A) := fun w =>
  let '(r, w') := m w in (Ok r, w').

Definition emits (es : list event) (w : World) : World :=
  {| fs := fs w; trace := trace w ++ es |}.
Definition emit (e : event) (w : World) : World := emits [e] w.

Definition session_get (session : Session) (url : str) : M Response := fun w =>
  (session (trace w) url, emit (EvGet url) w).

Definition print (line : str) : M unit := fun w => (Ok tt, emit (EvPrint line) w).

Definition sleep (seconds : Z) : M unit := fun w =>
  (Ok tt, emit (EvSleep seconds) w).

Definition isfile (path : str) : M bool := fun w =>
  (Ok (bool_decide (is_Some (fs w !! path))), w).

(** [open(path, "w")] / [open(path, "wb")]: the file is created or emptied. *)
Definition file_create (path : str) : M unit := fun w =>
  (Ok tt, {| fs := <[path := []]> (fs w); trace := trace w ++ [EvCreate path] |}).

Definition file_contents (path : str) (w : World) : list N :=
  default [] (fs w !! path).

(** [f.write(data)] on a file opened for writing. *)
Definition file_write (path : str) (data : list N) : M unit := fun w =>
  (Ok tt, {| fs := <[path := file_contents path w ++ data]> (fs w);
             trace := trace w ++ [EvWrite path data] |}).

(** [with open(path, "a") as f: f.write(data)] *)
Definition file_append (path : str) (data : list N) : M unit := fun w =>
  (Ok tt, {| fs := <[path := file_contents path w ++ data]> (fs w);
             trace := trace w ++ [EvAppend path data] |}).

(** [with open(path, "r") as f: f.read()] *)
Definition file_read (path : str) : M (list N) := fun w =>
  match fs w !! path with
  | Some data => (Ok data, w)
  | None => (Raise (Exn OSError path), w)
  end.

(** [os.stat(path).st_size] *)
Definition stat_size (path : str) : M Z := fun w =>
  match fs w !! path with
  | Some data => (Ok (Z.of_nat (length data)), w)
  | None => (Raise (Exn OSError path), w)
  end.

(** ** BeautifulSoup queries *)

Inductive attr_filter :=
| NoFilter                      (* find(name) / find(name, None) *)
| ByClass (c : str)             (* find(name, {"class": c}) *)
| ByAttr (k v : str).           (* find(name, {k: v}) *)

Definition lookup_attr (k : str) (attrs : list (str * str)) : option str :=
  snd <$> List.find (fun kv => Py.eqb (fst kv) k) attrs.

Definition tag_matches (name : str) (f : attr_filter) (t : Tag) : bool :=
  Py.eqb (tag_name t) name &&
  match f with
  | NoFilter => true
  | ByClass c => bool_decide (c ∈ tag_class t)
  | ByAttr k v => bool_decide (lookup_attr k (tag_attrs t) = Some v)
  end.

Definition soup_find (soup : Soup) (name : str) (f : attr_filter) : option Tag :=
  List.find (tag_matches name f) soup.
Definition soup_find_all (soup : Soup) (name : str) (f : attr_filter) : list Tag :=
  List.filter (tag_matches name f) soup.

(** [tag.get(attr)] and [tag[attr]] *)
Definition tag_get (t : Tag) (attr : str) : option str :=
  lookup_attr attr (tag_attrs t).
Definition tag_getitem (t : Tag) (attr : str) : M str :=
  match tag_get t attr with
  | Some v => mret v
  | None => raise (Exn KeyError attr)
  end.

(** ** Regular expressions of the shape the program uses

    An alternation of character classes: every alternative matches exactly one
    character, so [re.sub] replaces each matching character on its own. *)

Module Re.

Inductive class_item :=
| CLit (c : char)            (* a character, possibly escaped *)
| CRange (lo hi : char).     (* lo-hi *)

Definition pattern := list (list class_item).

(** The value of an octal escape from its digits. *)
Definition octal (digits : list N) : char :=
  fold_left (fun acc d => (8 * acc + d)%N) digits 0%N.

Definition item_matches (c : char) (it : class_item) : bool :=
  match it with
  | CLit d => (c =? d)%N
  | CRange lo hi => ((lo <=? c) && (c <=? hi))%N
  end.
Definition class_matches (c : char) (cls : list class_item) : bool :=
  existsb (item_matches c) cls.
Definition matches (p : pattern) (c : char) : bool :=
  existsb (class_matches c) p.

(** [re.sub(p, repl, s)] *)
Definition sub (p : pattern) (repl s : str) : str :=
  flat_map (fun c => if matches p c then repl else [c]) s.

End Re.

(** ** modules/utils.py *)

Module Utils.
Import Py.

Record UrlData := {
  file_name : str;
  extension : str;
  hostname : str
}.

Definition get_url_data (url : str) : UrlData :=
  let parsed_url := UrlParse.urlparse url in
  let file_name := PosixPath.basename (UrlParse.path parsed_url) in
  {| file_name := file_name;
     extension := snd (PosixPath.splitext file_name);
     hostname := default [] (UrlParse.hostname parsed_url) |}.

(** The pattern of the source: a class of ten literal characters (the
    angle brackets, the colon, the double quote, which is code point 34,
    the slash, the escaped backslash, the bar, the question mark, the star
    and the escaped single quote), or the class of the range between the
    octal escapes 0 and 31. *)
Definition illegal_chars : Re.pattern :=
  [ List.map Re.CLit (py "<>:" ++ [34%N] ++ py "/\|?*'");
    [ Re.CRange (Re.octal [0%N]) (Re.octal [3%N; 1%N]) ] ].

Definition remove_illegal_chars (string : str) : str :=
  strip (Re.sub illegal_chars (py "-") string).

(** The global [file_lock] serialises the file operations of the worker
    threads; the model runs them one after the other. *)

(** The two bookkeeping files of a download directory. *)
Definition ledger_path (download_path : str) : str :=
  PosixPath.join download_path (py "already_downloaded.txt").
Definition url_list_path (download_path : str) : str :=
  PosixPath.join download_path (py "url_list.txt").

(** [makedirs] has no counterpart here, directories being implicit. *)
Definition get_and_prepare_download_path
    (custom_path : option str) (album_name : str) : M str :=
  let base_path :=
    match custom_path with
    | Some (c :: r) => c :: r
    | _ => py "downloads"
    end in
  let final_path :=
    match album_name with
    | _ :: _ => PosixPath.join base_path album_name
    | [] => base_path
    end in
  let final_path := replace [10%N] [] final_path in
  let already_downloaded_path := ledger_path final_path in
  present ← isfile already_downloaded_path;
  (if present : bool then mret tt else file_create already_downloaded_path);;
  mret final_path.

Definition write_url_to_list (item_url download_path : str) : M unit :=
  let list_path := url_list_path download_path in
  file_append list_path (item_url ++ [10%N]).

Definition get_already_downloaded_url (download_path : str) : M (list str) :=
  let file_path := ledger_path download_path in
  present ← isfile file_path;
  if present : bool then
    text ← file_read file_path;
    mret (splitlines text)
  else mret [].

Definition mark_as_downloaded (item_url download_path : str) : M unit :=
  let file_path := ledger_path download_path in
  file_append file_path (item_url ++ [10%N]).

(** The lines that [get_cdn_file_url] prints. *)
Definition blocked_message (gallery_url : str) : str :=
  [9%N] ++ py "[-] Request blocked for " ++ gallery_url.
Definition http_error_message (gallery_url : str) (code : Z) : str :=
  [9%N] ++ py "[-] HTTP Error " ++ of_Z code ++ py " for " ++ gallery_url.
Definition no_list_message (gallery_url : str) : str :=
  [9%N] ++ py "[-] CDN list is empty, unable to resolve " ++ gallery_url.
Definition no_d_message (gallery_url : str) : str :=
  [9%N] ++ py "[-] Expected '/d/' in URL: " ++ gallery_url.

(** The URL that [get_cdn_file_url] builds for one host, [None] when no file
    name is given and the gallery URL has no [/d/]. *)
Definition url_to_test (cdn gallery_url : str) (file_name : option str)
    : option str :=
  match file_name with
  | None =>
      let pos := find (py "/d/") gallery_url in
      if pos =? -1 then None
      else Some (py "https://" ++ cdn ++ py "/"
                 ++ slice_from gallery_url (pos + 3))
  | Some name => Some (py "https://" ++ cdn ++ py "/" ++ name)
  end.

(** The body of the [for cdn in cdn_list] loop of [get_cdn_file_url], then
    the loop on the hosts that remain. *)
Fixpoint cdn_loop (session : Session) (cdns : list str)
    (gallery_url : str) (file_name : option str) : M (option str) :=
  match cdns with
  | [] => mret None
  | cdn :: rest =>
      match url_to_test cdn gallery_url file_name with
      | None =>
          print (no_d_message gallery_url);;
          mret None
      | Some url_to_test =>
          r ← catch (session_get session url_to_test);
          match r with
          | Raise e =>
              if is_RequestException e
              then cdn_loop session rest gallery_url file_name
              else raise e
          | Ok response =>
              if status_code response =? 200 then mret (Some url_to_test)
              else if status_code response =? 404 then
                cdn_loop session rest gallery_url file_name
              else if status_code response =? 403 then
                print (blocked_message gallery_url);;
                mret None
              else
                print (http_error_message gallery_url (status_code response));;
                mret None
          end
      end
  end.

Definition get_cdn_file_url (session : Session) (cdn_list : option (list str))
    (gallery_url : str) (file_name : option str) : M (option str) :=
  match cdn_list with
  | None | Some [] =>
      print (no_list_message gallery_url);;
      mret None
  | Some cdns => cdn_loop session cdns gallery_url file_name
  end.

End Utils.

(** ** modules/network.py *)

Module Network.
Import Py.

(** [enumerate(l, start)] *)
Definition enumerate {A} (l : list A) (start : Z) : list (Z * A) :=
  zip (seqZ start (Z.of_nat (length l))) l.

(** The loop of [get_cdn_list] over the enumerated elements. *)
Fixpoint cdn_names (pairs : list (Z * Tag)) (cdn_list : list str) : list str :=
  match pairs with
  | [] => cdn_list
  | (i, cdn) :: rest =>
      cdn_names rest
        (if 4 <? i
         then cdn_list ++ [lower (tag_text cdn) ++ py ".bunkr.ru"]
         else cdn_list)
  end.

Definition get_cdn_list (session : Session) : M (option (list str)) :=
  let url := py "https://status.bunkr.ru/" in
  response ← session_get session url;
  if negb (status_code response =? 200) then
    print (py "[-] HTTP Error " ++ of_Z (status_code response)
           ++ py " while getting CDN list");;
    mret None
  else
    let cdn_elements :=
      soup_find_all (resp_soup response) (py "p") (ByClass (py "flex-1")) in
    mret (Some (cdn_names (enumerate (drop 1 cdn_elements) 1) [])).

End Network.

(** ** modules/url_handler.py *)

Module UrlHandler.
Import Py.

(** The dictionaries that describe an item: ["url"], and when a resolver
    built it ["size"] and possibly ["name"]. *)
Record Item := {
  item_url : str;
  item_size : option Z;
  item_name : option str
}.

Inductive URLHandler := BunkrURLHandler | CyberdropURLHandler.

(** [{"url": u, "size": -1}]: a resolved item without a known size. *)
Definition media_item (u : str) : Item :=
  {| item_url := u; item_size := Some (-1); item_name := None |}.

(** The loop of [BunkrURLHandler.get_real_download_url] over the pairs of a
    tag and an attribute: the first pair whose element exists and has a
    non-empty attribute gives the item. *)
Fixpoint first_media (soup : Soup) (candidates : list (str * str))
    : option Item :=
  match candidates with
  | [] => None
  | (tag, attr) :: rest =>
      let element :=
        soup_find soup tag
          (if Py.eqb tag (py "img") then ByClass (py "max-h-full")
           else NoFilter) in
      match element with
      | Some e =>
          match tag_get e attr with
          | Some (c :: v) => Some (media_item (c :: v))
          | _ => first_media soup rest
          end
      | None => first_media soup rest
      end
  end.

Definition media_candidates : list (str * str) :=
  [ (py "source", py "src"); (py "media-player", py "src");
    (py "img", py "src") ].

(** A URL that does not start with [https] is completed with the bunkr
    host. *)
Definition complete_url (url : str) : str :=
  if negb (startswith (py "https") url) then py "https://bunkr.sk" ++ url
  else url.

Definition bunkr_get_real_download_url (session : Session)
    (cdn_list : option (list str)) (url : str) : M (option Item) :=
  let url := complete_url url in
  response ← session_get session url;
  if negb (status_code response =? 200) then
    print ([9%N] ++ py "[-] HTTP error " ++ of_Z (status_code response)
           ++ py " while resolving " ++ url);;
    mret None
  else
    let soup := resp_soup response in
    match first_media soup media_candidates with
    | Some item => mret (Some item)
    | None =>
        match soup_find soup (py "h1") (ByClass (py "truncate")) with
        | Some link_dom =>
            resolved_url ← Utils.get_cdn_file_url session cdn_list url None;
            mret (match resolved_url with
                  | Some (c :: u) => Some (media_item (c :: u))
                  | _ => None
                  end)
        | None => mret None
        end
    end.

Definition cyberdrop_get_real_download_url (session : Session)
    (cdn_list : option (list str)) (url : str) : M (option Item) :=
  let api_url := replace (py "/f/") (py "/api/f/") url in
  response ← session_get session api_url;
  if negb (status_code response =? 200) then
    print ([9%N] ++ py "[-] HTTP error " ++ of_Z (status_code response)
           ++ py " while resolving " ++ url);;
    mret None
  else
    match resp_json response with
    | Raise e =>
        if is_JSONDecodeError e then
          print ([9%N] ++ py "[-] JSON decoding error: " ++ exn_msg e);;
          mret None
        else raise e
    | Ok (JObject fields) =>
        match lookup_attr (py "url") fields with
        | Some u =>
            mret (Some {| item_url := u; item_size := Some (-1);
                          item_name := lookup_attr (py "name") fields |})
        | None => raise (Exn KeyError (py "'url'"))
        end
    | Ok JNotObject =>
        raise (Exn TypeError (py "indices must be integers"))
    end.

(** [URLHandlerFactory.get_url_handler] and the dispatch of the method. *)
Definition get_url_handler (is_bunkr : bool) : URLHandler :=
  if is_bunkr then BunkrURLHandler else CyberdropURLHandler.

Definition get_real_download_url (handler : URLHandler) (session : Session)
    (cdn_list : option (list str)) (url : str) : M (option Item) :=
  match handler with
  | BunkrURLHandler => bunkr_get_real_download_url session cdn_list url
  | CyberdropURLHandler => cyberdrop_get_real_download_url session cdn_list url
  end.

End UrlHandler.

(** ** modules/downloader.py *)

Module Downloader.
Import Py UrlHandler.

Record Task := {
  task_url : str;
  task_name : option str;
  task_is_bunkr : bool;
  task_retries : Z
}.

Definition maintenance_url : str := py "https://bnkr.b-cdn.net/maintenance.mp4".

(** The loop over [response.iter_content]: empty chunks are skipped.  The
    progress bar is console decoration and is left out. *)
Fixpoint write_chunks (path : str) (chunks : list (list N)) : M unit :=
  match chunks with
  | [] => mret tt
  | chunk :: rest =>
      (match chunk with
       | [] => mret tt
       | _ :: _ => file_write path chunk
       end);;
      write_chunks path rest
  end.

(** [file_name or url_info["file_name"]]: the name the file is saved under. *)
Definition target_name (item_url : str) (file_name : option str) : str :=
  let url_info := Utils.get_url_data item_url in
  match file_name with
  | Some (c :: n) => c :: n
  | _ => Utils.file_name url_info
  end.

(** [file_size]: the declared content-length, [-1] when the header is absent
    or is not an integer. *)
Definition declared_size (response : Response) : Z :=
  match content_length response with
  | Some v => default (-1) (int v)
  | None => -1
  end.

(** The lines that [download] prints. *)
Definition status_message (code : Z) (file_name : str) : str :=
  [9%N] ++ py "[-] Error " ++ of_Z code ++ py " downloading " ++ file_name.
Definition maintenance_message (file_name : str) : str :=
  [9%N] ++ py "[-] Server maintenance detected for " ++ file_name.
Definition mismatch_message (file_name : str) : str :=
  [9%N] ++ py "[-] File size mismatch for " ++ file_name
  ++ py "; the file may be corrupted.".

Definition download (session : Session) (item_url download_path : str)
    (is_bunkr : bool) (file_name : option str) : M unit :=
  let file_name := target_name item_url file_name in
  let final_path := PosixPath.join download_path file_name in
  response ← session_get session item_url;
  if negb (status_code response =? 200) then
    print (status_message (status_code response) file_name)
  else if Py.eqb (resp_url response) maintenance_url then
    print (maintenance_message file_name)
  else
    let file_size := declared_size response in
    file_create final_path;;
    write_chunks final_path (resp_chunks response);;
    (match resp_stream_error response with
     | Some e => raise e
     | None => mret tt
     end);;
    mismatch ←
      (if is_bunkr && (0 <? file_size) then
         downloaded_size ← stat_size final_path;
         mret (negb (downloaded_size =? file_size))
       else mret false);
    if mismatch : bool then print (mismatch_message file_name)
    else Utils.mark_as_downloaded item_url download_path.

(** The lines that [download_with_retries] prints. *)
Definition attempt_message (url : str) (attempt retries : Z) : str :=
  [9%N] ++ py "[+] Downloading " ++ url ++ py " (Attempt " ++ of_Z attempt
  ++ py "/" ++ of_Z retries ++ py ")".
Definition failed_message (url : str) (retries : Z) (e : exn) : str :=
  [9%N] ++ py "[-] Failed to download " ++ url ++ py " after " ++ of_Z retries
  ++ py " attempts: " ++ exn_msg e.
Definition unexpected_message (url : str) (e : exn) : str :=
  [9%N] ++ py "[-] Unexpected error downloading " ++ url ++ py ": " ++ exn_msg e.

(** The [for attempt in range(1, retries + 1)] loop on the attempts that
    remain. *)
Fixpoint retry_loop (session : Session) (url download_path : str)
    (is_bunkr : bool) (file_name : option str) (retries : Z)
    (attempts : list Z) : M unit :=
  match attempts with
  | [] => mret tt
  | attempt :: rest =>
      r ← catch
            (print (attempt_message url attempt retries);;
             download session url download_path is_bunkr file_name);
      match r with
      | Ok _ => mret tt
      | Raise e =>
          if is_RequestException e then
            (if attempt <? retries then sleep 2
             else print (failed_message url retries e));;
            retry_loop session url download_path is_bunkr file_name retries rest
          else print (unexpected_message url e)
      end
  end.

Definition download_with_retries (session : Session) (task : Task)
    (download_path : str) (cdn_list : option (list str)) : M unit :=
  let url := task_url task in
  let retries := task_retries task in
  let is_bunkr := task_is_bunkr task in
  let file_name := task_name task in
  retry_loop session url download_path is_bunkr file_name retries
    (seqZ 1 retries).

(** [[ext.strip() for ext in extensions.split(",")] if extensions else []] *)
Definition extensions_list_of (extensions : str) : list str :=
  match extensions with
  | [] => []
  | _ :: _ => List.map strip (split (py ",") extensions)
  end.

(** The test that guards the export or the enqueueing of a resolved item. *)
Definition wanted (extensions_list already_downloaded : list str)
    (item : Item) : bool :=
  let url_data := Utils.get_url_data (item_url item) in
  (bool_decide (extensions_list = [])
   || bool_decide (Utils.extension url_data ∈ extensions_list))
  && negb (bool_decide (item_url item ∈ already_downloaded)).

(** [handler.get_real_download_url(...)] on the item of a gallery; the item
    of a direct link is resolved already. *)
Definition resolve_item (session : Session) (cdn_list : option (list str))
    (handler : URLHandler) (direct_link : bool) (item : Item)
    : M (option Item) :=
  if negb direct_link
  then get_real_download_url handler session cdn_list (item_url item)
  else mret (Some item).

(** The task dictionary built from a resolved item. *)
Definition task_of (item : Item) (is_bunkr : bool) (retries : Z) : Task :=
  {| task_url := item_url item;
     task_name := item_name item;
     task_is_bunkr := is_bunkr;
     task_retries := retries |}.

Definition unresolved_message : str :=
  [9%N] ++ py "[-] Unable to resolve a valid download URL.".

(** One iteration of the [for item in items] loop of [process_url]; the
    result is the list [download_tasks] after it. *)
Definition process_item (session : Session) (cdn_list : option (list str))
    (handler : URLHandler) (direct_link is_bunkr only_export : bool)
    (retries : Z) (download_path : str)
    (extensions_list already_downloaded : list str)
    (item : Item) (download_tasks : list Task) : M (list Task) :=
  real_item ← resolve_item session cdn_list handler direct_link item;
  match real_item with
  | None =>
      print unresolved_message;;
      mret download_tasks
  | Some item =>
      if wanted extensions_list already_downloaded item then
        if only_export then
          Utils.write_url_to_list (item_url item) download_path;;
          mret download_tasks
        else mret (download_tasks ++ [task_of item is_bunkr retries])
      else mret download_tasks
  end.

Fixpoint process_items (session : Session) (cdn_list : option (list str))
    (handler : URLHandler) (direct_link is_bunkr only_export : bool)
    (retries : Z) (download_path : str)
    (extensions_list already_downloaded : list str)
    (items : list Item) (download_tasks : list Task) : M (list Task) :=
  match items with
  | [] => mret download_tasks
  | item :: rest =>
      download_tasks ←
        process_item session cdn_list handler direct_link is_bunkr
          only_export retries download_path extensions_list
          already_downloaded item download_tasks;
      process_items session cdn_list handler direct_link is_bunkr
        only_export retries download_path extensions_list
        already_downloaded rest download_tasks
  end.

(** The worker pool.  The tasks run in the order of their submission, each
    to its end, which is what a pool of one worker does; the interleavings
    of several workers are not represented.  An exception of a task comes
    out of [future.result()] and is printed. *)
Fixpoint run_tasks (session : Session) (download_path : str)
    (cdn_list : option (list str)) (tasks : list Task) : M unit :=
  match tasks with
  | [] => mret tt
  | task :: rest =>
      r ← catch (download_with_retries session task download_path cdn_list);
      (match r with
       | Ok _ => mret tt
       | Raise exc =>
           print ([9%N] ++ py "[-] Error processing " ++ task_url task
                  ++ py ": " ++ exn_msg exc)
       end);;
      run_tasks session download_path cdn_list rest
  end.

Definition page_item (url : str) : Item :=
  {| item_url := url; item_size := None; item_name := None |}.

(** The hrefs of the link elements of a gallery, in document order; a link
    without [href] raises [KeyError]. *)
Fixpoint link_items (prefix : str) (links : list Tag) : M (list Item) :=
  match links with
  | [] => mret []
  | link :: rest =>
      href ← tag_getitem link (py "href");
      items ← link_items prefix rest;
      mret (page_item (prefix ++ href) :: items)
  end.

Definition album_name_of (album_name_elem : option Tag) : str :=
  match album_name_elem with
  | Some elem => Utils.remove_illegal_chars (tag_text elem)
  | None => py "unknown_album"
  end.

Definition or_else {A} (a b : option A) : option A :=
  match a with Some _ => a | None => b end.

Definition process_url (session : Session) (cdn_list : option (list str))
    (url : str) (retries : Z) (extensions : str) (only_export : bool)
    (custom_path : option str) : M unit :=
  response ← session_get session url;
  if negb (status_code response =? 200) then
    print (py "[-] HTTP error " ++ of_Z (status_code response)
           ++ py " for " ++ url)
  else
    let soup := resp_soup response in
    let title_text :=
      match soup_find soup (py "title") NoFilter with
      | Some t => tag_text t
      | None => []
      end in
    let is_bunkr := contains (py "| Bunkr") title_text in
    let handler := get_url_handler is_bunkr in
    '(direct_link, album_name, items) ←
      (if is_bunkr then
         let direct_link :=
           bool_decide (is_Some (soup_find soup (py "span") (ByClass (py "ic-videos"))))
           || bool_decide (is_Some (soup_find soup (py "div") (ByClass (py "lightgallery")))) in
         if direct_link then
           let album_name_elem :=
             or_else (soup_find soup (py "h1") (ByClass (py "text-[20px]")))
                     (soup_find soup (py "h1") (ByClass (py "truncate"))) in
           let album_name := album_name_of album_name_elem in
           resolved ← get_real_download_url handler session cdn_list url;
           match resolved with
           | Some item => mret (true, album_name, [page_item (item_url item)])
           | None =>
               raise (Exn TypeError
                        (py "'NoneType' object is not subscriptable"))
           end
         else
           let album_name_elem :=
             soup_find soup (py "h1") (ByClass (py "truncate")) in
           let album_name := album_name_of album_name_elem in
           let boxes := soup_find_all soup (py "a") (ByClass (py "after:absolute")) in
           items ← link_items [] boxes;
           mret (false, album_name, items)
       else
         let album_name_elem :=
           soup_find soup (py "h1") (ByAttr (py "id") (py "title")) in
         let album_name := album_name_of album_name_elem in
         let items_dom := soup_find_all soup (py "a") (ByClass (py "image")) in
         items ← link_items (py "https://cyberdrop.me") items_dom;
         mret (false, album_name, items));
    download_path ← Utils.get_and_prepare_download_path custom_path album_name;
    already_downloaded ← Utils.get_already_downloaded_url download_path;
    let extensions_list := extensions_list_of extensions in
    download_tasks ←
      process_items session cdn_list handler direct_link is_bunkr only_export
        retries download_path extensions_list already_downloaded items [];
    if only_export then
      print ([9%N] ++ py "[+] URL list exported to "
             ++ Utils.url_list_path download_path)
    else
      (match download_tasks with
       | [] => mret tt
       | _ :: _ => run_tasks session download_path cdn_list download_tasks
       end);;
      print ([9%N] ++ py "[+] Download processing completed.").

End Downloader.

(** ** Definitions that follow the specification's words *)

(** The characters the specification lists as illegal in a name: the ten
    punctuation marks and the control bytes from 0x00 to 0x19. *)
Definition spec_illegal (c : char) : bool :=
  bool_decide (c ∈ Py.py "<>:" ++ [34%N] ++ Py.py "/\|?*'") || (c <=? 0x19)%N.

Definition spec_replace (c : char) : char :=
  if spec_illegal c then 45%N else c.

(** The host name built from one entry of the status page. *)
Definition cdn_name (entry : Tag) : str :=
  Py.lower (tag_text entry) ++ Py.py ".bunkr.ru".

(** The host list as the specification words it: the first four entries
    skipped. *)
Definition spec_cdn_hosts (entries : list Tag) : list str :=
  List.map cdn_name (drop 4 entries).



(** The chunks of a body that reach the file. *)
Definition nonempty_chunks (chunks : list (list N)) : list (list N) :=
  List.filter (fun chunk => negb (bool_decide (chunk = []))) chunks.

(** The events of a transfer that writes a whole body to a file. *)
Definition transfer_events (item_url final_path : str)
    (chunks : list (list N)) : list event :=
  [EvGet item_url; EvCreate final_path]
  ++ List.map (EvWrite final_path) (nonempty_chunks chunks).

(** The world once the body is in the file. *)
Definition after_transfer (item_url final_path : str)
    (chunks : list (list N)) (w : World) : World :=
  {| fs := <[final_path := concat chunks]> (fs w);
     trace := trace w ++ transfer_events item_url final_path chunks |}.

(** The requests, the sleeps and the appends of a run, in order. *)
Definition gets_of (t : list event) : list str :=
  omap (fun e => match e with EvGet u => Some u | _ => None end) t.
Definition sleeps_of (t : list event) : list Z :=
  omap (fun e => match e with EvSleep n => Some n | _ => None end) t.
Definition appends_of (t : list event) : list (str * list N) :=
  omap (fun e => match e with EvAppend p d => Some (p, d) | _ => None end) t.



(** A computation that appends to no file. *)
Definition quiet {A} (m : M A) : Prop :=
  forall w, appends_of (trace (snd (m w))) = appends_of (trace w).

(** The line that the export of a URL appends to the list of a directory. *)
Definition export_entry (download_path url : str) : str * list N :=
  (Utils.url_list_path download_path, url ++ [10%N]).


(** The candidate URL of a host for a path on it. *)
Definition candidate (path host : str) : str :=
  Py.py "https://" ++ host ++ Py.py "/" ++ path.

(** The answers after which the CDN probe moves on to the next host: HTTP 404
    and the network-level exceptions. *)
Definition moves_on (answer : result Response) : bool :=
  match answer with
  | Ok response => status_code response =? 404
  | Raise e => is_RequestException e
  end.

(** The session gives an answer of one kind to a URL whenever it is asked. *)
Definition always (session : Session) (url : str)
    (kind : result Response -> bool) : Prop :=
  forall history, kind (session history url) = true.

Definition answers_status (code : Z) (answer : result Response) : bool :=
  match answer with
  | Ok response => status_code response =? code
  | Raise _ => false
  end.

(** ** Inputs of the examples *)

Definition world0 : World := {| fs := ∅; trace := [] |}.

Definition element (name : string) (classes : list string)
    (attrs : list (string * string)) (text : string) : Tag :=
  {| tag_name := Py.py name;
     tag_class := List.map Py.py classes;
     tag_attrs := List.map (fun kv => (Py.py (fst kv), Py.py (snd kv))) attrs;
     tag_text := Py.py text |}.

Definition no_json : result JSON :=
  Raise (Exn JSONDecodeError (Py.py "Expecting value: line 1 column 1 (char 0)")).

(** A response that carries a page. *)
Definition page (code : Z) (soup : Soup) : Response :=
  {| status_code := code; resp_url := []; content_length := None;
     resp_soup := soup; resp_json := no_json;
     resp_chunks := []; resp_stream_error := None |}.

(** A session that answers by the URL alone, whatever happened before. *)
Definition static_session (answer : str -> result Response) : Session :=
  fun _ url => answer url.

Definition connection_error : exn :=
  Exn RequestException (Py.py "connection refused").

(** A status page with six entries. *)
Definition status_entries : list Tag :=
  [ element "p" ["flex-1"] [] "Site";
    element "p" ["flex-1"] [] "Api";
    element "p" ["flex-1"] [] "Albums";
    element "p" ["flex-1"] [] "Search";
    element "p" ["flex-1"] [] "Alpha";
    element "p" ["flex-1"] [] "Beta" ].

Definition status_session : Session :=
  static_session (fun url =>
    if Py.eqb url (Py.py "https://status.bunkr.ru/")
    then Ok (page 200 (element "title" [] [] "Status" :: status_entries))
    else Raise connection_error).

(** Three hosts: the candidate of the first is missing (404), that of the
    second is served (200), the third is unreachable. *)
Definition probe_hosts : list str :=
  [Py.py "c1.bunkr.ru"; Py.py "c2.bunkr.ru"; Py.py "c3.bunkr.ru"].

Definition probe_session : Session :=
  static_session (fun url =>
    if Py.eqb url (Py.py "https://c1.bunkr.ru/clip.mp4") then Ok (page 404 [])
    else if Py.eqb url (Py.py "https://c2.bunkr.ru/clip.mp4") then Ok (page 200 [])
    else Raise connection_error).



(** A file response: 200, with a declared length and a body in chunks. *)
Definition file_response (declared : option string) (chunks : list (list N))
    : Response :=
  {| status_code := 200; resp_url := Py.py "https://cdn.example/clip.mp4";
     content_length := Py.py <$> declared;
     resp_soup := []; resp_json := no_json;
     resp_chunks := chunks; resp_stream_error := None |}.



(** A server that refuses the first two requests and then serves a file of
    the length it declares. *)
Definition flaky_session : Session :=
  fun history url =>
    if bool_decide (length (gets_of history) < 2)%nat
    then Raise connection_error
    else Ok (file_response (Some "5") [[104; 101]; []; [108; 108; 111]]%N).

Definition clip_task (retries : Z) : Downloader.Task :=
  {| Downloader.task_url := Py.py "https://cdn.example/clip.mp4";
     Downloader.task_name := None;
     Downloader.task_is_bunkr := true;
     Downloader.task_retries := retries |}.

(** An API answer. *)
Definition api_response (doc : list (string * string)) : Response :=
  {| status_code := 200; resp_url := []; content_length := None;
     resp_soup := [];
     resp_json :=
       Ok (JObject (List.map (fun kv => (Py.py (fst kv), Py.py (snd kv))) doc));
     resp_chunks := []; resp_stream_error := None |}.

(** A cyberdrop album with two items; [first] is what the API answers for
    the first of them. *)
Definition album_page : Response :=
  page 200
    [ element "title" [] [] "Holiday - Cyberdrop";
      element "h1" [] [("id", "title")] "My/Album:Name";
      element "a" ["image"] [("href", "/f/one")] "";
      element "a" ["image"] [("href", "/f/two")] "" ].

Definition album_session (first : list (string * string)) : Session :=
  static_session (fun url =>
    if Py.eqb url (Py.py "https://cyberdrop.me/a/holiday") then Ok album_page
    else if Py.eqb url (Py.py "https://cyberdrop.me/api/f/one")
    then Ok (api_response first)
    else if Py.eqb url (Py.py "https://cyberdrop.me/api/f/two")
    then Ok (api_response [("url", "https://cdn.example/clip.mp4")])
    else Raise connection_error).

Definition pic_answer : list (string * string) :=
  [("url", "https://cdn.example/pic.jpg"); ("name", "pic.jpg")].

(** A bunkr page of one video (a direct link) that shows no media element
    and no truncated heading: the resolver finds nothing on it. *)
Definition bare_video_page : Response :=
  page 200
    [ element "title" [] [] "clip.mp4 | Bunkr";
      element "span" ["ic-videos"] [] "";
      element "h1" ["text-[20px]"] [] "clip.mp4" ].

Definition bare_video_session : Session :=
  static_session (fun url =>
    if Py.eqb url (Py.py "https://bunkr.sk/v/clip") then Ok bare_video_page
    else Raise connection_error).



(** ** main.py *)

Module Main.
Import Py.

(** The namespace that [parse_arguments] returns. *)
Record Args := {
  arg_u : option str;     (* -u, default None *)
  arg_f : option str;     (* -f, default None *)
  arg_r : Z;              (* -r, default 10 *)
  arg_e : str;            (* -e, default the empty string *)
  arg_p : option str;     (* -p, default None *)
  arg_w : bool            (* -w, store_true *)
}.

Definition no_input_message : str := py "[-] No URL or file provided".
Definition both_inputs_message : str :=
  py "[-] Please provide only one URL or file".
Definition missing_file_message (f : str) : str :=
  py "[-] File " ++ f ++ py " does not exist.".
Definition processing_message (url : str) : str :=
  py "[~] Processing URL: " ++ url.

(** The loop of [main] over the URLs of the file. *)
Fixpoint process_urls (session : Session) (cdn_list : option (list str))
    (args : Args) (urls : list str) : M unit :=
  match urls with
  | [] => mret tt
  | url :: rest =>
      print (processing_message url);;
      Downloader.process_url session cdn_list url (arg_r args) (arg_e args)
        (arg_w args) (arg_p args);;
      process_urls session cdn_list args rest
  end.

(** [main()], after [parse_arguments].  The result is the status of
    [sys.exit] when the program exits through it, [None] when [main]
    returns.  The session of [create_session] is the environment (its
    headers are not observable here).  With [-f] given as the empty string
    and no [-u], [process_url] is called on [None], which [requests] refuses
    with [MissingSchema], a [RequestException], before any request. *)
Definition main (session : Session) (args : Args) : M (option Z) :=
  match arg_u args, arg_f args with
  | None, None => print no_input_message;; mret (Some 1)
  | Some _, Some _ => print both_inputs_message;; mret (Some 1)
  | _, _ =>
      cdn_list ← Network.get_cdn_list session;
      match arg_f args with
      | Some (c :: f) =>
          present ← isfile (c :: f);
          if negb present then
            print (missing_file_message (c :: f));;
            mret (Some 1)
          else
            text ← file_read (c :: f);
            process_urls session cdn_list args (splitlines text);;
            mret None
      | _ =>
          match arg_u args with
          | Some url =>
              Downloader.process_url session cdn_list url (arg_r args)
                (arg_e args) (arg_w args) (arg_p args);;
              mret None
          | None =>
              raise (Exn RequestException
                       (py "Invalid URL 'None': No scheme supplied."
                        ++ py " Perhaps you meant https://None?"))
          end
      end
  end.

End Main.

(** ** Further definitions for the statements *)

(** A ledger as the program leaves it: empty, or ending with a line feed. *)
Definition ledger_wellformed (content : list N) : Prop :=
  content = [] \/ exists lines, content = lines ++ [10%N].

(** A string without a line boundary of [splitlines]. *)
Definition one_line (s : str) : Prop :=
  Forall (fun c => Py.is_linebreak c = false) s.

(** The candidates of a host list, in order. *)
Definition candidates (gallery_url : str) (file_name : option str)
    (hosts : list str) : list str :=
  omap (fun cdn => Utils.url_to_test cdn gallery_url file_name) hosts.

(** The answers of the transport class. *)
Definition transport_failure (answer : result Response) : bool :=
  match answer with
  | Ok _ => false
  | Raise e => is_RequestException e
  end.

(** A computation that changes no file. *)
Definition keeps_files {A} (m : M A) : Prop :=
  forall w, fs (snd (m w)) = fs w.

(** The path [download] writes the body to. *)
Definition final_path_of (download_path item_url : str)
    (file_name : option str) : str :=
  PosixPath.join download_path (Downloader.target_name item_url file_name).

(** The appends of a run all go to one file of one directory. *)
Definition appends_one_file (only_export : bool) {A} (m : M A) : Prop :=
  forall w, exists download_path entries,
    appends_of (trace (snd (m w))) = appends_of (trace w) ++ entries
    /\ Forall (fun entry : str * list N =>
                 fst entry = if only_export
                             then Utils.url_list_path download_path
                             else Utils.ledger_path download_path) entries.

(** * Properties *)

Import Py.

(** ** String lemmas *)

Section StringFacts.

Lemma startswith_app (p s : str) :
  startswith p s = true -> s = p ++ drop (length p) s.
Proof.
  revert s; induction p as [|a p IH]; intros [|b s] H; simpl in *; try done.
  apply andb_true_iff in H as [Hab Hps].
  apply N.eqb_eq in Hab; subst b. f_equal. by apply IH.
Qed.




Lemma lstrip_with_spec (P : char -> bool) (s : str) :
  exists pre, s = pre ++ lstrip_with P s
              /\ forallb P pre = true
              /\ match lstrip_with P s with
                 | c :: _ => P c = false
                 | [] => True
                 end.
Proof.
  induction s as [|c s (pre & Heq & Hpre & Hhd)]; simpl.
  - by exists [].
  - destruct (P c) eqn:E.
    + exists (c :: pre). simpl. rewrite E, Hpre. split; [by f_equal|done].
    + exists []. simpl. by rewrite E.
Qed.

(** [find] answers [-1] or the index of an occurrence. *)
Lemma find_from_spec (sub s : str) (i : Z) :
  find_from sub s i = -1
  \/ (i <= find_from sub s i
      /\ startswith sub (drop (Z.to_nat (find_from sub s i - i)) s) = true).
Proof.
  revert i; induction s as [|c s IH]; intros i; simpl.
  - destruct (startswith sub []) eqn:E; [right|by left].
    split; [lia|]. by replace (i - i) with 0 by lia.
  - destruct (startswith sub (c :: s)) eqn:E.
    + right. split; [lia|]. by replace (i - i) with 0 by lia.
    + destruct (IH (i + 1)) as [Heq | [Hle Hst]]; [by left|right].
      split; [lia|].
      set (r := find_from sub s (i + 1)) in *.
      by replace (Z.to_nat (r - i)) with (S (Z.to_nat (r - (i + 1)))) by lia.
Qed.

Lemma find_split (sub s : str) :
  find sub s <> -1 ->
  0 <= find sub s
  /\ s = slice_to s (find sub s) ++ sub
         ++ slice_from s (find sub s + Z.of_nat (length sub)).
Proof.
  unfold find, slice_to, slice_from. intros Hne.
  destruct (find_from_spec sub s 0) as [? | [Hle Hst]]; [done|].
  split; [done|]. set (r := find_from sub s 0) in *.
  rewrite Z.sub_0_r in Hst. apply startswith_app in Hst.
  rewrite <- (take_drop (Z.to_nat r) s) at 1. rewrite Hst at 1.
  rewrite drop_drop. do 3 f_equal. lia.
Qed.

End StringFacts.

(** ** The monad *)

Section MonadFacts.

Lemma emits_nil (w : World) : emits [] w = w.
Proof. destruct w. unfold emits; simpl. by rewrite app_nil_r. Qed.

Lemma emits_emits (a b : list event) (w : World) :
  emits b (emits a w) = emits (a ++ b) w.
Proof. unfold emits; simpl. by rewrite app_assoc. Qed.

Lemma emit_emits (a : list event) (e : event) (w : World) :
  emit e (emits a w) = emits (a ++ [e]) w.
Proof. apply emits_emits. Qed.

Lemma emits_cons (e : event) (a : list event) (w : World) :
  emits a (emit e w) = emits (e :: a) w.
Proof. apply emits_emits. Qed.

End MonadFacts.

(** Unfolds the monadic plumbing of a goal. *)
Ltac run_monad :=
  unfold mbind, M_bind, mret, M_ret, catch, raise, print, sleep, session_get;
  cbn beta iota.

(** ** Sanitising names ([utils.remove_illegal_chars]) *)

Section Sanitize.
Import Utils.

Lemma illegal_chars_matches (c : char) :
  Re.matches illegal_chars c = spec_illegal c.
Proof.
  unfold spec_illegal.
  apply eq_true_iff_eq.
  rewrite orb_true_iff, bool_decide_eq_true.
  change (py "<>:" ++ [34%N] ++ py "/\|?*'")
    with [60; 62; 58; 34; 47; 92; 124; 63; 42; 39]%N.
  rewrite !elem_of_cons, elem_of_nil.
  cbn -[N.eqb N.leb].
  rewrite !orb_true_iff, !andb_true_iff, !N.eqb_eq, !N.leb_le.
  change (Re.octal [0%N]) with 0%N. change (Re.octal [3%N; 1%N]) with 25%N.
  intuition lia.
Qed.

Lemma sub_illegal_chars (s : str) :
  Re.sub illegal_chars (py "-") s = List.map spec_replace s.
Proof.
  unfold Re.sub. induction s as [|c s IH]; [done|].
  cbn [flat_map List.map]. rewrite IH, illegal_chars_matches.
  unfold spec_replace. by destruct (spec_illegal c).
Qed.

Lemma strip_with_spec (P : char -> bool) (t : str) :
  exists pre post,
    t = pre ++ strip_with P t ++ post
    /\ forallb P pre = true /\ forallb P post = true
    /\ (forall c, head (strip_with P t) = Some c -> P c = false)
    /\ (forall c, last (strip_with P t) = Some c -> P c = false).
Proof.
  unfold strip_with, rstrip_with.
  destruct (lstrip_with_spec P t) as (pre & Ht & Hpre & Hhd).
  set (m := lstrip_with P t) in *.
  destruct (lstrip_with_spec P (rev m)) as (post & Hm & Hpost & Hlast).
  set (x := lstrip_with P (rev m)) in *.
  assert (Hm' : m = rev x ++ rev post).
  { rewrite <- (rev_involutive m), Hm. by rewrite rev_app_distr. }
  exists pre, (rev post). repeat split.
  - by rewrite <- Hm'.
  - done.
  - rewrite forallb_forall in *. intros c Hc. apply Hpost.
    by apply in_rev.
  - intros c Hc. rewrite Hm' in Hhd.
    destruct (rev x) as [|d r]; simpl in *; [done|]. congruence.
  - intros c Hc. rewrite rev_alt in Hc. change (rev_append x []) with (reverse x) in Hc.
    rewrite last_reverse in Hc.
    destruct x as [|d r]; simpl in *; [done|]. congruence.
Qed.

(** C8: for every input string, [remove_illegal_chars] replaces every
    occurrence of the ten characters < > : / \ | ? * and the double and the
    single quote, and every control byte 0x00-0x19, with a hyphen and
    leaves the other characters as they are, then
    trims the surrounding whitespace: what is cut off at both ends is
    whitespace only, and the result neither starts nor ends with a
    whitespace character.  The album title [My/Album:Name] becomes
    [My-Album-Name]. *)
Theorem remove_illegal_chars_correct :
  (forall s : str,
      remove_illegal_chars s = strip (List.map spec_replace s)
      /\ exists pre post,
           List.map spec_replace s = pre ++ remove_illegal_chars s ++ post
           /\ forallb isspace pre = true /\ forallb isspace post = true
           /\ match head (remove_illegal_chars s) with
              | Some c => isspace c = false
              | None => True
              end
           /\ match last (remove_illegal_chars s) with
              | Some c => isspace c = false
              | None => True
              end)
  /\ remove_illegal_chars (py "My/Album:Name") = py "My-Album-Name".
Proof.
  split; [|by vm_compute].
  intros s. unfold remove_illegal_chars. rewrite sub_illegal_chars.
  split; [done|]. unfold strip.
  destruct (strip_with_spec isspace (List.map spec_replace s))
    as (pre & post & Heq & Hpre & Hpost & Hhd & Hlast).
  exists pre, post. repeat split; try done.
  - destruct (head _) as [c|]; [by apply Hhd | done].
  - destruct (last _) as [c|]; [by apply Hlast | done].
Qed.

End Sanitize.

(** ** File names and extensions ([utils.get_url_data]) *)

Section UrlData.
Import Utils PosixPath.







End UrlData.

(** ** The CDN host list ([network.get_cdn_list]) *)

Section CdnList.
Import Network.

Lemma cdn_names_enumerate (l : list Tag) (start : Z) (acc : list str) :
  cdn_names (enumerate l start) acc
  = acc ++ List.map cdn_name (drop (Z.to_nat (5 - start)) l).
Proof.
  unfold enumerate.
  revert start acc; induction l as [|x l IH]; intros start acc.
  - simpl. by rewrite drop_nil, app_nil_r.
  - cbn [length]. rewrite seqZ_cons by lia.
    replace (Z.pred (Z.of_nat (S (length l)))) with (Z.of_nat (length l)) by lia.
    cbn [zip zip_with cdn_names]. rewrite IH.
    destruct (4 <? start) eqn:E.
    + apply Z.ltb_lt in E.
      replace (Z.to_nat (5 - Z.succ start)) with 0%nat by lia.
      replace (Z.to_nat (5 - start)) with 0%nat by lia.
      cbn [drop List.map]. by rewrite <- app_assoc.
    + apply Z.ltb_ge in E.
      replace (Z.to_nat (5 - start)) with (S (Z.to_nat (5 - Z.succ start))) by lia.
      done.
Qed.

(** C7 (as stated, refuted): on a status page with six entries the list has
    one host, built from the sixth entry; skipping the first four entries
    would give the hosts of the fifth and the sixth. *)
Lemma get_cdn_list_skips_five :
  fst (get_cdn_list status_session world0) = Ok (Some [py "beta.bunkr.ru"])
  /\ spec_cdn_hosts status_entries = [py "alpha.bunkr.ru"; py "beta.bunkr.ru"].
Proof. by vm_compute. Qed.

(** C7 (amended): for every successfully fetched CDN-status page,
    [get_cdn_list] builds the CDN host list by skipping the first five list
    entries and, for each remaining entry in order, appending the fixed
    domain suffix [.bunkr.ru] to the entry's lowercased text; a non-200 fetch
    of the status page yields no list. *)
Theorem get_cdn_list_hosts (session : Session) (w : World) (response : Response) :
  session (trace w) (py "https://status.bunkr.ru/") = Ok response ->
  let entries :=
    soup_find_all (resp_soup response) (py "p") (ByClass (py "flex-1")) in
  (status_code response = 200 ->
   get_cdn_list session w
   = (Ok (Some (List.map cdn_name (drop 5 entries))),
      emit (EvGet (py "https://status.bunkr.ru/")) w))
  /\ (status_code response <> 200 ->
      fst (get_cdn_list session w) = Ok None).
Proof.
  intros Hget entries.
  unfold get_cdn_list, mbind, M_bind, session_get. rewrite Hget.
  split; intros Hcode.
  - rewrite Hcode. cbn [Z.eqb Pos.eqb negb]. unfold mret, M_ret.
    rewrite cdn_names_enumerate. cbn [app].
    change (Z.to_nat (5 - 1)) with 4%nat. by rewrite drop_drop.
  - apply Z.eqb_neq in Hcode. rewrite Hcode. done.
Qed.

Lemma get_cdn_list_hosts_witness :
  get_cdn_list status_session world0
  = (Ok (Some [py "beta.bunkr.ru"]),
     emit (EvGet (py "https://status.bunkr.ru/")) world0).
Proof.
  refine (proj1 (get_cdn_list_hosts status_session world0
                   (page 200 (element "title" [] [] "Status" :: status_entries))
                   _) _);
    reflexivity.
Defined.

End CdnList.

(** ** The CDN probe ([utils.get_cdn_file_url]) *)

Section CdnProbe.
Import Utils.

Variable session : Session.
Variable gallery_url : str.
Variable file_name : option str.

(** What one iteration does, by the answer to its request. *)
Lemma cdn_loop_step (cdn : str) (rest : list str) (u : str) (w : World) :
  url_to_test cdn gallery_url file_name = Some u ->
  cdn_loop session (cdn :: rest) gallery_url file_name w
  = match session (trace w) u with
    | Ok response =>
        if status_code response =? 200 then (Ok (Some u), emit (EvGet u) w)
        else if status_code response =? 404
        then cdn_loop session rest gallery_url file_name (emit (EvGet u) w)
        else if status_code response =? 403
        then (Ok None, emits [EvGet u; EvPrint (blocked_message gallery_url)] w)
        else (Ok None,
              emits [EvGet u;
                     EvPrint (http_error_message gallery_url
                                (status_code response))] w)
    | Raise e =>
        if is_RequestException e
        then cdn_loop session rest gallery_url file_name (emit (EvGet u) w)
        else (Raise e, emit (EvGet u) w)
    end.
Proof.
  intros Hu. cbn [cdn_loop]. rewrite Hu. run_monad.
  destruct (session (trace w) u) as [response|e].
  - destruct (status_code response =? 200); [done|].
    destruct (status_code response =? 404); [done|].
    destruct (status_code response =? 403); unfold emit; by rewrite emits_emits.
  - by destruct (is_RequestException e).
Qed.

(** Hosts whose candidates get a 404 or a network-level exception are probed
    in order and passed. *)
Lemma cdn_loop_moves_on (path : str) (pre post : list str) (w : World) :
  (forall cdn, url_to_test cdn gallery_url file_name = Some (candidate path cdn)) ->
  Forall (fun cdn => always session (candidate path cdn) moves_on) pre ->
  cdn_loop session (pre ++ post) gallery_url file_name w
  = cdn_loop session post gallery_url file_name
      (emits (List.map (fun cdn => EvGet (candidate path cdn)) pre) w).
Proof.
  intros Hu Hpre. revert w.
  induction Hpre as [|cdn pre Hcdn _ IH]; intros w.
  - by rewrite emits_nil.
  - cbn [app List.map]. rewrite (cdn_loop_step cdn _ _ w (Hu cdn)).
    specialize (Hcdn (trace w)). unfold moves_on in Hcdn.
    destruct (session (trace w) (candidate path cdn)) as [response|e].
    + apply Z.eqb_eq in Hcdn. rewrite Hcdn. cbn [Z.eqb Pos.eqb].
      by rewrite IH, emits_cons.
    + rewrite Hcdn. by rewrite IH, emits_cons.
Qed.

Lemma url_to_test_name (cdn name : str) :
  url_to_test cdn gallery_url (Some name) = Some (candidate name cdn).
Proof. done. Qed.

Lemma url_to_test_path (cdn : str) :
  find (py "/d/") gallery_url <> -1 ->
  url_to_test cdn gallery_url None
  = Some (candidate (slice_from gallery_url (find (py "/d/") gallery_url + 3)) cdn)
  /\ gallery_url
     = slice_to gallery_url (find (py "/d/") gallery_url) ++ py "/d/"
       ++ slice_from gallery_url (find (py "/d/") gallery_url + 3).
Proof.
  intros Hpos. split.
  - unfold url_to_test. apply Z.eqb_neq in Hpos. by rewrite Hpos.
  - by destruct (find_split (py "/d/") gallery_url Hpos) as [_ Hsplit].
Qed.

Lemma cdn_loop_stops (path : str) (pre post : list str) (cdn : str) (w : World) :
  (forall cdn, url_to_test cdn gallery_url file_name = Some (candidate path cdn)) ->
  Forall (fun cdn => always session (candidate path cdn) moves_on) pre ->
  forall code, always session (candidate path cdn) (answers_status code) ->
  let probed := List.map (fun cdn => EvGet (candidate path cdn)) (pre ++ [cdn]) in
  get_cdn_file_url session (Some (pre ++ cdn :: post)) gallery_url file_name w
  = if code =? 200 then (Ok (Some (candidate path cdn)), emits probed w)
    else if code =? 404
    then cdn_loop session post gallery_url file_name (emits probed w)
    else if code =? 403
    then (Ok None, emits (probed ++ [EvPrint (blocked_message gallery_url)]) w)
    else (Ok None,
          emits (probed ++ [EvPrint (http_error_message gallery_url code)]) w).
Proof.
  intros Hu Hpre code Hcdn probed.
  assert (get_cdn_file_url session (Some (pre ++ cdn :: post)) gallery_url file_name w
          = cdn_loop session (pre ++ cdn :: post) gallery_url file_name w) as ->
    by (by destruct pre).
  rewrite (cdn_loop_moves_on path pre _ w Hu Hpre).
  rewrite (cdn_loop_step cdn post _ _ (Hu cdn)).
  subst probed. rewrite map_app. cbn [List.map].
  set (gets := List.map _ pre).
  specialize (Hcdn (trace (emits gets w))). unfold answers_status in Hcdn.
  destruct (session _ _) as [response|e]; [|done].
  apply Z.eqb_eq in Hcdn. rewrite Hcdn. unfold emit.
  destruct (code =? 200); [by rewrite emits_emits|].
  destruct (code =? 404); [by rewrite emits_emits|].
  destruct (code =? 403); rewrite emits_emits; by rewrite <- app_assoc.
Qed.

End CdnProbe.

(** C3: for every CDN host list, gallery URL and optional file name, the
    probe builds for a host the candidate [https://{host}/{fileName}] when a
    file name is given and otherwise [https://{host}/{path after /d/}]; an
    empty or absent host list, or a missing [/d/] when no file name is given,
    yields nothing and no request.  The hosts are tried strictly in list
    order: after hosts answered with 404 or a network-level exception, which
    are passed, a host answered with 200 makes the probe return its candidate
    without a request to any later host, a host answered with 403 or with any
    other status makes it return nothing at once, and the end of the list
    yields nothing.  The last part states one iteration exactly. *)
Theorem get_cdn_file_url_probe
    (session : Session) (gallery_url : str) (file_name : option str) :
  (forall cdn name,
      Utils.url_to_test cdn gallery_url (Some name) = Some (candidate name cdn))
  /\ (forall cdn,
        find (py "/d/") gallery_url <> -1 ->
        Utils.url_to_test cdn gallery_url None
        = Some (candidate
                  (slice_from gallery_url (find (py "/d/") gallery_url + 3)) cdn)
        /\ gallery_url
           = slice_to gallery_url (find (py "/d/") gallery_url) ++ py "/d/"
             ++ slice_from gallery_url (find (py "/d/") gallery_url + 3))
  /\ (forall w cdn_list,
        cdn_list = None \/ cdn_list = Some [] ->
        Utils.get_cdn_file_url session cdn_list gallery_url file_name w
        = (Ok None, emit (EvPrint (Utils.no_list_message gallery_url)) w))
  /\ (forall w cdn rest,
        find (py "/d/") gallery_url = -1 ->
        Utils.get_cdn_file_url session (Some (cdn :: rest)) gallery_url None w
        = (Ok None, emit (EvPrint (Utils.no_d_message gallery_url)) w))
  /\ (forall path pre w,
        (forall cdn,
            Utils.url_to_test cdn gallery_url file_name
            = Some (candidate path cdn)) ->
        Forall (fun cdn => always session (candidate path cdn) moves_on) pre ->
        let probed hosts :=
          List.map (fun cdn => EvGet (candidate path cdn)) hosts in
        (pre <> [] ->
         Utils.get_cdn_file_url session (Some pre) gallery_url file_name w
         = (Ok None, emits (probed pre) w))
        /\ (forall cdn post,
              always session (candidate path cdn) (answers_status 200) ->
              Utils.get_cdn_file_url session (Some (pre ++ cdn :: post))
                gallery_url file_name w
              = (Ok (Some (candidate path cdn)), emits (probed (pre ++ [cdn])) w))
        /\ (forall cdn post,
              always session (candidate path cdn) (answers_status 403) ->
              Utils.get_cdn_file_url session (Some (pre ++ cdn :: post))
                gallery_url file_name w
              = (Ok None,
                 emits (probed (pre ++ [cdn])
                        ++ [EvPrint (Utils.blocked_message gallery_url)]) w))
        /\ (forall cdn post code,
              code <> 200 -> code <> 404 -> code <> 403 ->
              always session (candidate path cdn) (answers_status code) ->
              Utils.get_cdn_file_url session (Some (pre ++ cdn :: post))
                gallery_url file_name w
              = (Ok None,
                 emits (probed (pre ++ [cdn])
                        ++ [EvPrint (Utils.http_error_message gallery_url code)])
                   w)))
  /\ (forall cdn rest u w,
        Utils.url_to_test cdn gallery_url file_name = Some u ->
        Utils.get_cdn_file_url session (Some (cdn :: rest)) gallery_url file_name w
        = match session (trace w) u with
          | Ok response =>
              if status_code response =? 200
              then (Ok (Some u), emit (EvGet u) w)
              else if status_code response =? 404
              then Utils.cdn_loop session rest gallery_url file_name
                     (emit (EvGet u) w)
              else if status_code response =? 403
              then (Ok None,
                    emits [EvGet u; EvPrint (Utils.blocked_message gallery_url)] w)
              else (Ok None,
                    emits [EvGet u;
                           EvPrint (Utils.http_error_message gallery_url
                                      (status_code response))] w)
          | Raise e =>
              if is_RequestException e
              then Utils.cdn_loop session rest gallery_url file_name
                     (emit (EvGet u) w)
              else (Raise e, emit (EvGet u) w)
          end).
Proof.
  split; [intros; apply url_to_test_name|].
  split; [intros; by apply url_to_test_path|].
  split; [by intros w cdn_list [-> | ->]|].
  split.
  { intros w cdn rest Hpos. cbn [Utils.get_cdn_file_url Utils.cdn_loop].
    unfold Utils.url_to_test. by rewrite Hpos. }
  split; [|intros; by apply cdn_loop_step].
  intros path pre w Hu Hpre probed. repeat split.
  - intros Hne.
    assert (Utils.get_cdn_file_url session (Some pre) gallery_url file_name w
            = Utils.cdn_loop session (pre ++ []) gallery_url file_name w) as ->
      by (rewrite app_nil_r; by destruct pre).
    by rewrite (cdn_loop_moves_on session gallery_url file_name path pre [] w Hu Hpre).
  - intros cdn post H200.
    by rewrite (cdn_loop_stops session gallery_url file_name path pre post cdn w
                  Hu Hpre 200 H200).
  - intros cdn post H403.
    by rewrite (cdn_loop_stops session gallery_url file_name path pre post cdn w
                  Hu Hpre 403 H403).
  - intros cdn post code H200 H404 H403 Hcode.
    rewrite (cdn_loop_stops session gallery_url file_name path pre post cdn w
               Hu Hpre code Hcode).
    apply Z.eqb_neq in H200, H404, H403. by rewrite H200, H404, H403.
Qed.

(** The probe on three hosts: the first answers 404, the second 200, and the
    third is never asked. *)
Lemma get_cdn_file_url_probe_witness :
  Utils.get_cdn_file_url probe_session (Some probe_hosts)
    (py "https://bunkr.sk/d/clip.mp4") None world0
  = (Ok (Some (py "https://c2.bunkr.ru/clip.mp4")),
     emits [EvGet (py "https://c1.bunkr.ru/clip.mp4");
            EvGet (py "https://c2.bunkr.ru/clip.mp4")] world0).
Proof.
  destruct (get_cdn_file_url_probe probe_session
              (py "https://bunkr.sk/d/clip.mp4") None)
    as (_ & _ & _ & _ & Horder & _).
  destruct (Horder (py "clip.mp4") [py "c1.bunkr.ru"] world0)
    as (_ & Hfound & _).
  - intros cdn. reflexivity.
  - constructor; [|constructor]. intros history. reflexivity.
  - apply (Hfound (py "c2.bunkr.ru") [py "c3.bunkr.ru"]).
    intros history. reflexivity.
Defined.

(** ** Resolution of a bunkr page ([BunkrURLHandler.get_real_download_url]) *)

Section BunkrResolver.
Import UrlHandler.







End BunkrResolver.

(** ** One download ([downloader.download]) *)

Section Download.
Import Downloader.

Lemma write_chunks_run (path : str) (chunks : list (list N)) (w : World)
    (data : list N) :
  fs w !! path = Some data ->
  write_chunks path chunks w
  = (Ok tt,
     {| fs := <[path := data ++ concat chunks]> (fs w);
        trace := trace w ++ List.map (EvWrite path) (nonempty_chunks chunks) |}).
Proof.
  revert w data. induction chunks as [|chunk rest IH]; intros w data Hdata.
  - cbn. rewrite !app_nil_r, insert_id by done. by destruct w.
  - cbn [write_chunks]. run_monad. destruct chunk as [|c chunk].
    + rewrite (IH w data Hdata). done.
    + unfold file_write, file_contents. rewrite Hdata. cbn [default].
      erewrite IH by (cbn; apply lookup_insert_eq).
      cbn [fs trace]. rewrite insert_insert_eq.
      cbn [concat nonempty_chunks List.filter].
      rewrite bool_decide_eq_false_2 by done.
      cbn [negb List.map]. fold (nonempty_chunks rest).
      by rewrite <- !app_assoc.
Qed.

(** [download] once the response is a 200 that is not the maintenance
    redirect. *)
Lemma download_run (session : Session) (item_url download_path : str)
    (is_bunkr : bool) (file_name : option str) (w : World) (response : Response) :
  session (trace w) item_url = Ok response ->
  status_code response = 200 ->
  resp_url response <> maintenance_url ->
  let name := target_name item_url file_name in
  let final_path := PosixPath.join download_path name in
  let w_body := after_transfer item_url final_path (resp_chunks response) w in
  download session item_url download_path is_bunkr file_name w
  = match resp_stream_error response with
    | Some e => (Raise e, w_body)
    | None =>
        if is_bunkr && (0 <? declared_size response)
           && negb (Z.of_nat (length (concat (resp_chunks response)))
                    =? declared_size response)
        then (Ok tt, emit (EvPrint (mismatch_message name)) w_body)
        else Utils.mark_as_downloaded item_url download_path w_body
    end.
Proof.
  intros Hget Hcode Hmaint name final_path w_body.
  unfold download. fold name. fold final_path. run_monad.
  rewrite Hget, Hcode. cbn [Z.eqb Pos.eqb negb].
  unfold Py.eqb. rewrite bool_decide_eq_false_2 by done.
  unfold file_create at 1.
  erewrite write_chunks_run by (cbn; apply lookup_insert_eq).
  cbn [fs trace app]. rewrite insert_insert_eq.
  match goal with
  | |- context [match _ with Some _ => _ | None => _ end ?W] =>
      assert (Hw : W = w_body)
        by (subst w_body; unfold after_transfer, transfer_events; f_equal;
            cbn; by rewrite <- !app_assoc);
      rewrite Hw
  end.
  destruct (resp_stream_error response) as [e|]; [done|].
  destruct (is_bunkr && (0 <? declared_size response)) eqn:Hcheck; cbn [andb].
  - unfold stat_size. subst w_body. unfold after_transfer at 1. cbn [fs].
    rewrite lookup_insert_eq.
    by destruct (_ =? _).
  - done.
Qed.





Lemma gets_of_transfer (item_url final_path : str) (chunks : list (list N)) :
  gets_of (transfer_events item_url final_path chunks) = [item_url]
  /\ sleeps_of (transfer_events item_url final_path chunks) = []
  /\ appends_of (transfer_events item_url final_path chunks) = [].
Proof.
  unfold transfer_events, gets_of, sleeps_of, appends_of. cbn.
  induction (nonempty_chunks chunks) as [|c l (Hg & Hs & Ha)]; [done|].
  cbn. injection Hg as Hg. by rewrite Hg, Hs, Ha.
Qed.

(** What one call of [download] adds to the trace: one request, no sleep,
    and at most one append, the ledger entry, when it returns. *)
Lemma download_events (session : Session) (item_url download_path : str)
    (is_bunkr : bool) (file_name : option str) (w : World) :
  exists new,
    trace (snd (download session item_url download_path is_bunkr file_name w))
    = trace w ++ new
    /\ gets_of new = [item_url]
    /\ sleeps_of new = []
    /\ (appends_of new = []
        \/ (appends_of new
            = [(Utils.ledger_path download_path, item_url ++ [10%N])]
            /\ fst (download session item_url download_path is_bunkr file_name w)
               = Ok tt)).
Proof.
  set (name := target_name item_url file_name).
  set (final_path := PosixPath.join download_path name).
  destruct (session (trace w) item_url) as [response|e] eqn:Hget.
  2:{ exists [EvGet item_url]. unfold download. run_monad. rewrite Hget.
      repeat split; try done. by left. }
  destruct (decide (status_code response = 200)) as [Hcode|Hcode].
  2:{ exists [EvGet item_url;
              EvPrint (status_message (status_code response) name)].
      unfold download. run_monad. rewrite Hget.
      apply Z.eqb_neq in Hcode. rewrite Hcode. cbn [negb].
      repeat split; try done; [cbn; by rewrite <- app_assoc | by left]. }
  destruct (decide (resp_url response = maintenance_url)) as [Hmaint|Hmaint].
  { exists [EvGet item_url; EvPrint (maintenance_message name)].
    unfold download. run_monad. rewrite Hget, Hcode. cbn [Z.eqb Pos.eqb negb].
    unfold Py.eqb. rewrite bool_decide_eq_true_2 by done.
    repeat split; try done; [cbn; by rewrite <- app_assoc | by left]. }
  rewrite (download_run _ _ _ _ _ _ _ Hget Hcode Hmaint).
  fold name. fold final_path.
  set (chunks := resp_chunks response).
  destruct (gets_of_transfer item_url final_path chunks) as (Hg & Hs & Ha).
  destruct (resp_stream_error response) as [e|] eqn:Hstream.
  { exists (transfer_events item_url final_path chunks).
    repeat split; try done. by left. }
  destruct (is_bunkr && (0 <? declared_size response)
            && negb (Z.of_nat (length (concat chunks)) =? declared_size response)).
  { exists (transfer_events item_url final_path chunks
            ++ [EvPrint (mismatch_message name)]).
    unfold gets_of, sleeps_of, appends_of in *. rewrite !omap_app, Hg, Hs, Ha.
    repeat split; try done; [cbn; by rewrite <- app_assoc | by left]. }
  exists (transfer_events item_url final_path chunks
          ++ [EvAppend (Utils.ledger_path download_path) (item_url ++ [10%N])]).
  unfold gets_of, sleeps_of, appends_of in *. rewrite !omap_app, Hg, Hs, Ha.
  repeat split; try done; [cbn; by rewrite <- app_assoc | by right].
Qed.


End Download.

(** ** Retries ([downloader.download_with_retries]) *)

Section Retries.
Import Downloader.

Variable session : Session.
Variables url download_path : str.
Variable is_bunkr : bool.
Variable file_name : option str.
Variable retries : Z.

Local Abbreviation loop :=
  (retry_loop session url download_path is_bunkr file_name retries).
Local Abbreviation attempt_at k w :=
  (download session url download_path is_bunkr file_name
     (emit (EvPrint (attempt_message url k retries)) w)).

Lemma retry_loop_step (k : Z) (rest : list Z) (w : World) :
  loop (k :: rest) w
  = match attempt_at k w with
    | (Ok _, w2) => (Ok tt, w2)
    | (Raise e, w2) =>
        if is_RequestException e then
          loop rest (if k <? retries then emit (EvSleep 2) w2
                     else emit (EvPrint (failed_message url retries e)) w2)
        else (Ok tt, emit (EvPrint (unexpected_message url e)) w2)
    end.
Proof.
  cbn [retry_loop]. run_monad.
  destruct (download _ _ _ _ _ _) as [[[]|e] w2]; [done|].
  destruct (is_RequestException e); [|done]. by destruct (k <? retries).
Qed.



End Retries.



(** C10: for every download task whose retry count is [<= 0],
    [download_with_retries] performs no download attempt and returns
    normally, the world being what it was: no HTTP request is issued, no
    file is created or modified, nothing is appended to the ledger (and
    nothing is printed, no sleep is taken). *)
Theorem download_with_retries_no_attempt (session : Session)
    (task : Downloader.Task) (download_path : str)
    (cdn_list : option (list str)) (w : World) :
  Downloader.task_retries task <= 0 ->
  Downloader.download_with_retries session task download_path cdn_list w
  = (Ok tt, w).
Proof.
  intros Hr. unfold Downloader.download_with_retries.
  by rewrite seqZ_nil by lia.
Qed.

Lemma download_with_retries_no_attempt_witness :
  Downloader.download_with_retries flaky_session (clip_task 0)
    (py "downloads/album") None world0
  = (Ok tt, world0).
Proof.
  apply (download_with_retries_no_attempt flaky_session (clip_task 0)).
  by vm_compute.
Defined.

(** ** Filtering the items of a batch ([downloader.process_url]) *)

Section Quiet.

Lemma quiet_ret {A} (a : A) : quiet (mret a).
Proof. by intros w. Qed.

Lemma quiet_raise {A} (e : exn) : quiet (@raise A e).
Proof. by intros w. Qed.

Lemma quiet_bind {A B} (m : M A) (f : A -> M B) :
  quiet m -> (forall a, quiet (f a)) -> quiet (m ≫= f).
Proof.
  intros Hm Hf w. unfold mbind, M_bind. specialize (Hm w).
  destruct (m w) as [[a|e] w1]; cbn [snd] in *; [|done].
  by rewrite Hf.
Qed.

Lemma quiet_catch {A} (m : M A) : quiet m -> quiet (catch m).
Proof.
  intros Hm w. unfold catch. specialize (Hm w). by destruct (m w).
Qed.

Lemma quiet_print (line : str) : quiet (print line).
Proof.
  intros w. unfold print, appends_of. cbn. rewrite omap_app. cbn.
  by rewrite app_nil_r.
Qed.

Lemma quiet_session_get (session : Session) (url : str) :
  quiet (session_get session url).
Proof.
  intros w. unfold session_get, appends_of. cbn. rewrite omap_app. cbn.
  by rewrite app_nil_r.
Qed.

End Quiet.

Create HintDb quiet.
#[local] Hint Resolve quiet_ret quiet_raise quiet_print quiet_session_get
  quiet_catch : quiet.

(** Splits a computation along its binds and case distinctions. *)
Ltac quiet_step :=
  first
    [ apply quiet_bind; [|intros ?]
    | progress auto with quiet
    | match goal with
      | |- quiet (match ?x with _ => _ end) => destruct x
      | |- quiet (if ?b then _ else _) => destruct b
      end ].

Section Filter.
Import UrlHandler Downloader.

Lemma quiet_cdn_loop (session : Session) (cdns : list str) (gallery_url : str)
    (file_name : option str) :
  quiet (Utils.cdn_loop session cdns gallery_url file_name).
Proof.
  induction cdns as [|cdn rest IH]; cbn [Utils.cdn_loop]; [apply quiet_ret|].
  repeat quiet_step.
Qed.

Lemma quiet_get_cdn_file_url (session : Session) (cdn_list : option (list str))
    (gallery_url : str) (file_name : option str) :
  quiet (Utils.get_cdn_file_url session cdn_list gallery_url file_name).
Proof.
  unfold Utils.get_cdn_file_url.
  destruct cdn_list as [[|cdn rest]|]; try (repeat quiet_step; fail).
  apply quiet_cdn_loop.
Qed.

Lemma quiet_get_real_download_url (handler : URLHandler) (session : Session)
    (cdn_list : option (list str)) (url : str) :
  quiet (get_real_download_url handler session cdn_list url).
Proof.
  destruct handler; cbn [get_real_download_url].
  - unfold bunkr_get_real_download_url.
    apply quiet_bind; [auto with quiet|]. intros response.
    destruct (negb _); [repeat quiet_step|].
    destruct (first_media _ _); [auto with quiet|].
    destruct (soup_find _ _ _); [|auto with quiet].
    apply quiet_bind; [apply quiet_get_cdn_file_url | auto with quiet].
  - unfold cyberdrop_get_real_download_url. repeat quiet_step.
Qed.

Lemma quiet_resolve_item (session : Session) (cdn_list : option (list str))
    (handler : URLHandler) (direct_link : bool) (item : Item) :
  quiet (resolve_item session cdn_list handler direct_link item).
Proof.
  unfold resolve_item. destruct (negb direct_link); [|apply quiet_ret].
  apply quiet_get_real_download_url.
Qed.


Section Batch.

Variable session : Session.
Variable cdn_list : option (list str).
Variable handler : URLHandler.
Variables direct_link is_bunkr only_export : bool.
Variable retries : Z.
Variable download_path : str.
Variables extensions_list already_downloaded : list str.

Local Abbreviation step :=
  (process_item session cdn_list handler direct_link is_bunkr only_export
     retries download_path extensions_list already_downloaded).
Local Abbreviation batch :=
  (process_items session cdn_list handler direct_link is_bunkr only_export
     retries download_path extensions_list already_downloaded).

Lemma process_item_resolved (item resolved : Item) (tasks : list Task)
    (w w1 : World) :
  resolve_item session cdn_list handler direct_link item w
  = (Ok (Some resolved), w1) ->
  step item tasks w
  = if wanted extensions_list already_downloaded resolved then
      if only_export
      then (Ok tasks,
            snd (file_append (Utils.url_list_path download_path)
                   (item_url resolved ++ [10%N]) w1))
      else (Ok (tasks ++ [task_of resolved is_bunkr retries]), w1)
    else (Ok tasks, w1).
Proof.
  intros Hres. unfold process_item. unfold mbind at 1. unfold M_bind at 1.
  rewrite Hres.
  destruct (wanted _ _ _); [|done]. by destruct only_export.
Qed.

(** What an iteration does to the task list and to the appends. *)
Lemma process_item_kept (item : Item) (tasks : list Task) (w : World) :
  exists kept : list Item,
    Forall (fun it => wanted extensions_list already_downloaded it = true) kept
    /\ appends_of (trace (snd (step item tasks w)))
       = appends_of (trace w)
         ++ (if only_export
             then List.map (fun it => export_entry download_path (item_url it)) kept
             else [])
    /\ forall tasks',
        fst (step item tasks w) = Ok tasks' ->
        tasks' = tasks ++ (if only_export then []
                           else List.map (fun it => task_of it is_bunkr retries) kept).
Proof.
  pose proof (quiet_resolve_item session cdn_list handler direct_link item w)
    as Hquiet.
  destruct (resolve_item session cdn_list handler direct_link item w)
    as [[[resolved|]|e] w1] eqn:Hres; cbn [snd] in Hquiet.
  - rewrite (process_item_resolved _ _ _ _ _ Hres).
    destruct (wanted extensions_list already_downloaded resolved) eqn:Hw.
    + exists [resolved]. split; [by constructor|].
      destruct only_export; cbn [fst snd List.map].
      * split; [|by intros ? [= <-]; rewrite app_nil_r].
        unfold file_append, appends_of in *. cbn [trace snd].
        by rewrite omap_app, Hquiet.
      * split; [by rewrite app_nil_r | by intros ? [= <-]].
    + exists []. split; [constructor|]. cbn [fst snd List.map].
      split; [by destruct only_export; rewrite app_nil_r|].
      intros ? [= <-]. by destruct only_export; rewrite app_nil_r.
  - exists []. split; [constructor|].
    unfold process_item. run_monad. rewrite Hres.
    cbn [fst snd List.map]. split.
    + unfold appends_of in *. cbn. rewrite omap_app, Hquiet. cbn.
      by destruct only_export; rewrite !app_nil_r.
    + intros ? [= <-]. by destruct only_export; rewrite app_nil_r.
  - exists []. split; [constructor|].
    unfold process_item. run_monad. rewrite Hres.
    cbn [fst snd List.map]. split; [|done].
    by destruct only_export; rewrite app_nil_r.
Qed.

Lemma process_items_kept (items : list Item) (tasks : list Task) (w : World) :
  exists kept : list Item,
    Forall (fun it => wanted extensions_list already_downloaded it = true) kept
    /\ appends_of (trace (snd (batch items tasks w)))
       = appends_of (trace w)
         ++ (if only_export
             then List.map (fun it => export_entry download_path (item_url it)) kept
             else [])
    /\ forall tasks',
        fst (batch items tasks w) = Ok tasks' ->
        tasks' = tasks ++ (if only_export then []
                           else List.map (fun it => task_of it is_bunkr retries) kept).
Proof.
  revert tasks w. induction items as [|item rest IH]; intros tasks w.
  - exists []. split; [constructor|].
    cbn [process_items]. unfold mret, M_ret. cbn [fst snd List.map].
    split; [by destruct only_export; rewrite app_nil_r|].
    intros ? [= <-]. by destruct only_export; rewrite app_nil_r.
  - destruct (process_item_kept item tasks w) as (kept1 & Hk1 & Ha1 & Ht1).
    cbn [process_items]. unfold mbind, M_bind.
    destruct (step item tasks w) as [[tasks1|e] w1]; cbn [fst snd] in *.
    + destruct (IH tasks1 w1) as (kept2 & Hk2 & Ha2 & Ht2).
      exists (kept1 ++ kept2). split; [by apply Forall_app|].
      rewrite Ha2, Ha1. pose proof (Ht1 tasks1 eq_refl) as Htasks1.
      split.
      * destruct only_export; [|by rewrite !app_nil_r].
        by rewrite map_app, app_assoc.
      * intros tasks' Hok. rewrite (Ht2 tasks' Hok), Htasks1.
        destruct only_export; [by rewrite !app_nil_r|].
        by rewrite map_app, app_assoc.
    + exists kept1. by split; [|split].
Qed.

End Batch.

Lemma get_already_downloaded_url_run (download_path : str) (w : World) :
  Utils.get_already_downloaded_url download_path w
  = (Ok (splitlines (file_contents (Utils.ledger_path download_path) w)), w).
Proof.
  unfold Utils.get_already_downloaded_url, isfile, file_read, file_contents.
  run_monad. cbn zeta.
  destruct (fs w !! Utils.ledger_path download_path) as [data|] eqn:Hfile.
  - rewrite bool_decide_eq_true_2 by done. cbn beta. by rewrite Hfile.
  - by rewrite bool_decide_eq_false_2 by (by intros [? ?]).
Qed.

End Filter.



(** ** Failures of one item or task and the batch ([downloader.process_url]) *)

Section Isolation.
Import Downloader.

(** No exception comes out of the retry loop, whatever the attempts do. *)
Lemma retry_loop_returns (session : Session) (url download_path : str)
    (is_bunkr : bool) (file_name : option str) (retries : Z)
    (attempts : list Z) (w : World) :
  fst (retry_loop session url download_path is_bunkr file_name retries attempts w)
  = Ok tt.
Proof.
  revert w. induction attempts as [|k rest IH]; intros w; [done|].
  rewrite retry_loop_step.
  destruct (download _ _ _ _ _ _) as [[[]|e] w2]; [done|].
  destruct (is_RequestException e); [apply IH | done].
Qed.

(** The pool runs every task and returns. *)
Lemma run_tasks_returns (session : Session) (download_path : str)
    (cdn_list : option (list str)) (tasks : list Task) (w : World) :
  fst (run_tasks session download_path cdn_list tasks w) = Ok tt.
Proof.
  revert w. induction tasks as [|task rest IH]; intros w; [done|].
  cbn [run_tasks]. run_monad.
  pose proof (retry_loop_returns session (task_url task) download_path
                (task_is_bunkr task) (task_name task) (task_retries task)
                (seqZ 1 (task_retries task)) w) as Hret.
  unfold download_with_retries.
  destruct (retry_loop _ _ _ _ _ _ _ _) as [[[]|e] w1]; [apply IH | done].
Qed.

(** C1 (the code at the failing inputs): the failures of download tasks are
    caught, the pool always returns; the failures of resolution are not.  On
    an album of two items whose API answers the empty object for the first,
    [process_url] ends with the [KeyError] of that item: the second item is
    never requested, nothing is downloaded and the closing line is not
    printed.  On a direct-link page that the resolver finds nothing on, it
    ends with the [TypeError] of subscripting [None].  With a well-formed
    answer the same album is processed to its end. *)
Theorem process_url_resolution_failure_aborts :
  (forall session download_path cdn_list tasks w,
      fst (run_tasks session download_path cdn_list tasks w) = Ok tt)
  /\ (let run :=
        process_url (album_session []) None (py "https://cyberdrop.me/a/holiday")
          3 [] false None world0 in
      fst run = Raise (Exn KeyError (py "'url'"))
      /\ gets_of (trace (snd run))
         = [py "https://cyberdrop.me/a/holiday";
            py "https://cyberdrop.me/api/f/one"]
      /\ last (trace (snd run)) = Some (EvGet (py "https://cyberdrop.me/api/f/one")))
  /\ (let run :=
        process_url bare_video_session None (py "https://bunkr.sk/v/clip")
          3 [] false None world0 in
      fst run = Raise (Exn TypeError (py "'NoneType' object is not subscriptable"))
      /\ gets_of (trace (snd run))
         = [py "https://bunkr.sk/v/clip"; py "https://bunkr.sk/v/clip"])
  /\ (let run :=
        process_url (album_session pic_answer) None
          (py "https://cyberdrop.me/a/holiday") 3 [] false None world0 in
      fst run = Ok tt
      /\ last (trace (snd run))
         = Some (EvPrint ([9%N] ++ py "[+] Download processing completed."))).
Proof.
  split; [apply run_tasks_returns|].
  split; [by vm_compute|]. split; by vm_compute.
Qed.

End Isolation.

(** * Further properties of the code *)

(** ** The ledger ([utils.mark_as_downloaded], [utils.get_already_downloaded_url]) *)

Section Ledger.

Lemma splitlines_go_line (t cur : str) :
  one_line t ->
  splitlines_go (t ++ [10%N]) cur false = [rev cur ++ t].
Proof.
  intros Ht. revert cur. induction Ht as [|x t Hx _ IH]; intros cur.
  - cbn. by rewrite app_nil_r.
  - cbn [app splitlines_go andb]. rewrite Hx, IH. cbn. by rewrite <- app_assoc.
Qed.

Lemma splitlines_go_app (lines t cur : str) (after_cr : bool) :
  (after_cr = true -> cur = []) ->
  splitlines_go ((lines ++ [10%N]) ++ t) cur after_cr
  = splitlines_go (lines ++ [10%N]) cur after_cr ++ splitlines_go t [] false.
Proof.
  revert cur after_cr. induction lines as [|x lines IH]; intros cur after_cr Hcr.
  - cbn [app splitlines_go]. destruct after_cr.
    + rewrite (Hcr eq_refl). done.
    + done.
  - cbn [app splitlines_go].
    destruct (after_cr && (x =? 10)%N)%bool; [by apply IH|].
    destruct (is_linebreak x).
    + cbn [app]. f_equal. by apply IH.
    + by apply IH.
Qed.

Lemma splitlines_append (content url : str) :
  ledger_wellformed content -> one_line url ->
  splitlines (content ++ url ++ [10%N]) = splitlines content ++ [url].
Proof.
  intros [-> | [lines ->]] Hurl; unfold splitlines.
  - cbn [app]. rewrite splitlines_go_line by done. reflexivity.
  - rewrite splitlines_go_app by (intros; discriminate).
    rewrite (splitlines_go_line url) by done. reflexivity.
Qed.

Lemma mark_as_downloaded_run (item_url download_path : str) (w : World) :
  Utils.mark_as_downloaded item_url download_path w
  = (Ok tt,
     {| fs := <[Utils.ledger_path download_path :=
                file_contents (Utils.ledger_path download_path) w
                ++ item_url ++ [10%N]]> (fs w);
        trace := trace w ++ [EvAppend (Utils.ledger_path download_path)
                               (item_url ++ [10%N])] |}).
Proof. done. Qed.

(** X1: marking a URL and reading the ledger back: the URL is the new last line;
    the ledger stays well formed; the filter of the next run rejects the URL. *)
Theorem ledger_round_trip (item_url download_path : str) (w : World) :
  ledger_wellformed (file_contents (Utils.ledger_path download_path) w) ->
  one_line item_url ->
  let before := fst (Utils.get_already_downloaded_url download_path w) in
  let w' := snd (Utils.mark_as_downloaded item_url download_path w) in
  exists lines,
    before = Ok lines
    /\ Utils.get_already_downloaded_url download_path w'
       = (Ok (lines ++ [item_url]), w')
    /\ ledger_wellformed (file_contents (Utils.ledger_path download_path) w')
    /\ forall extensions_list item,
        UrlHandler.item_url item = item_url ->
        Downloader.wanted extensions_list (lines ++ [item_url]) item = false.
Proof.
  intros Hwf Hurl before w'.
  exists (splitlines (file_contents (Utils.ledger_path download_path) w)).
  subst before. rewrite get_already_downloaded_url_run. split; [done|].
  rewrite get_already_downloaded_url_run.
  assert (Hc : file_contents (Utils.ledger_path download_path) w'
               = file_contents (Utils.ledger_path download_path) w
                 ++ item_url ++ [10%N]).
  { subst w'. rewrite mark_as_downloaded_run. unfold file_contents at 1.
    cbn [snd fs]. by rewrite lookup_insert_eq. }
  rewrite Hc. split; [by rewrite splitlines_append|].
  split.
  - right. exists (file_contents (Utils.ledger_path download_path) w ++ item_url).
    by rewrite <- app_assoc.
  - intros extensions_list item <-. unfold Downloader.wanted.
    rewrite (bool_decide_eq_true_2 (_ ∈ _ ++ _)); [by rewrite andb_false_r|].
    apply elem_of_app. right. by apply list_elem_of_singleton.
Qed.

Lemma ledger_round_trip_witness :
  Utils.get_already_downloaded_url (py "downloads/album")
    (snd (Utils.mark_as_downloaded (py "https://cdn.example/b.jpg")
            (py "downloads/album")
            (snd (Utils.mark_as_downloaded (py "https://cdn.example/a.jpg")
                    (py "downloads/album") world0))))
  = (Ok [py "https://cdn.example/a.jpg"; py "https://cdn.example/b.jpg"],
     snd (Utils.mark_as_downloaded (py "https://cdn.example/b.jpg")
            (py "downloads/album")
            (snd (Utils.mark_as_downloaded (py "https://cdn.example/a.jpg")
                    (py "downloads/album") world0)))).
Proof.
  destruct (ledger_round_trip (py "https://cdn.example/b.jpg")
              (py "downloads/album")
              (snd (Utils.mark_as_downloaded (py "https://cdn.example/a.jpg")
                      (py "downloads/album") world0)))
    as (lines & Hbefore & Hafter & _).
  - right. by eexists.
  - repeat constructor.
  - injection Hbefore as <-. exact Hafter.
Defined.

End Ledger.

(** ** The download directory ([utils.get_and_prepare_download_path]) *)

Section Prepare.

Lemma replace_remove (c : char) (s : str) :
  replace [c] [] s = List.filter (fun x => negb (c =? x)%N) s.
Proof.
  unfold replace. induction s as [|x s IH]; [done|].
  cbn [replace_go startswith length Nat.sub app List.filter].
  rewrite andb_true_r. destruct (c =? x)%N; cbn [negb]; by rewrite IH.
Qed.

(** The directory that is prepared. *)
Lemma prepared_path_no_newline (custom_path : option str) (album_name : str)
    (w : World) (path : str) :
  fst (Utils.get_and_prepare_download_path custom_path album_name w) = Ok path ->
  10%N ∉ path.
Proof.
  unfold Utils.get_and_prepare_download_path. run_monad. unfold isfile.
  set (p := replace [10%N] [] _).
  assert (Hp : 10%N ∉ p).
  { subst p. rewrite replace_remove. intros Hin.
    apply list_elem_of_In, filter_In in Hin as [_ Hin]. done. }
  destruct (bool_decide _); cbn; by intros [= <-].
Qed.

(** X2: preparing the download directory never fails and changes at most one
    file: when the ledger of the directory exists nothing changes at all (the
    record of earlier downloads is never emptied), otherwise the ledger is
    created empty.  The path returned holds no line feed, and preparing again
    changes nothing. *)
Theorem prepare_download_path_keeps_ledger (custom_path : option str)
    (album_name : str) (w : World) :
  exists path,
    let w' := snd (Utils.get_and_prepare_download_path custom_path album_name w) in
    fst (Utils.get_and_prepare_download_path custom_path album_name w) = Ok path
    /\ (10%N ∉ path)
    /\ is_Some (fs w' !! Utils.ledger_path path)
    /\ file_contents (Utils.ledger_path path) w'
       = file_contents (Utils.ledger_path path) w
    /\ (forall p, p <> Utils.ledger_path path -> fs w' !! p = fs w !! p)
    /\ (is_Some (fs w !! Utils.ledger_path path) -> w' = w)
    /\ Utils.get_and_prepare_download_path custom_path album_name w'
       = (Ok path, w').
Proof.
  destruct (Utils.get_and_prepare_download_path custom_path album_name w)
    as [r w'] eqn:Hrun.
  pose proof (prepared_path_no_newline custom_path album_name w) as Hnl.
  rewrite Hrun in Hnl. cbn [fst snd] in *.
  revert Hrun. unfold Utils.get_and_prepare_download_path. run_monad.
  unfold isfile, file_create.
  set (path := replace [10%N] [] _) in *.
  destruct (fs w !! Utils.ledger_path path) as [data|] eqn:Hfile.
  - rewrite bool_decide_eq_true_2 by done. intros [= <- <-].
    exists path. rewrite Hfile, bool_decide_eq_true_2 by done.
    repeat split; try done. exact (Hnl path eq_refl).
  - rewrite bool_decide_eq_false_2 by (by intros [? ?]). intros [= <- <-].
    exists path. cbn [fs]. rewrite lookup_insert_eq.
    rewrite bool_decide_eq_true_2 by done.
    repeat split; try done.
    + exact (Hnl path eq_refl).
    + unfold file_contents. cbn [fs]. by rewrite lookup_insert_eq, Hfile.
    + intros p Hp. by rewrite lookup_insert_ne.
    + intros [x Hx]. congruence.
Qed.

End Prepare.

(** ** Sanitised names are clean ([utils.remove_illegal_chars]) *)

Section SanitizeMore.
Import Utils.

Lemma lstrip_with_id (P : char -> bool) (s : str) :
  match s with c :: _ => P c = false | [] => True end ->
  lstrip_with P s = s.
Proof. destruct s as [|c s]; [done|]. cbn. by intros ->. Qed.

Lemma strip_with_idem (P : char -> bool) (t : str) :
  strip_with P (strip_with P t) = strip_with P t.
Proof.
  destruct (strip_with_spec P t) as (_ & _ & _ & _ & _ & Hhd & Hlast).
  set (m := strip_with P t) in *.
  unfold strip_with at 1. unfold rstrip_with.
  rewrite (lstrip_with_id P m).
  2:{ destruct m as [|c m']; [done|]. by apply Hhd. }
  rewrite (lstrip_with_id P (rev m)); [apply rev_involutive|].
  destruct (rev m) as [|c r] eqn:Hrev; [done|].
  apply Hlast. rewrite <- (rev_involutive m), Hrev.
  rewrite rev_alt. change (rev_append (c :: r) []) with (reverse (c :: r)).
  by rewrite last_reverse.
Qed.

Lemma spec_replace_legal (c : char) : spec_illegal (spec_replace c) = false.
Proof.
  unfold spec_replace. destruct (spec_illegal c) eqn:E; [by vm_compute | done].
Qed.

Lemma spec_replace_id (s : str) :
  Forall (fun c => spec_illegal c = false) s -> List.map spec_replace s = s.
Proof.
  induction 1 as [|c s Hc _ IH]; [done|].
  cbn. unfold spec_replace at 1. by rewrite Hc, IH.
Qed.

(** X3: a sanitised name holds none of the characters that the pattern matches
    (in particular no slash), is no longer than the input, and sanitising it
    again changes nothing. *)
Theorem remove_illegal_chars_clean (s : str) :
  let name := remove_illegal_chars s in
  Forall (fun c => Re.matches illegal_chars c = false) name
  /\ (47%N ∉ name)
  /\ (length name <= length s)%nat
  /\ remove_illegal_chars name = name.
Proof.
  cbn zeta. unfold remove_illegal_chars. rewrite sub_illegal_chars.
  set (t := List.map spec_replace s).
  assert (Ht : Forall (fun c => spec_illegal c = false) t).
  { subst t. apply Forall_forall. intros c Hc.
    apply list_elem_of_In, in_map_iff in Hc as (x & <- & _).
    apply spec_replace_legal. }
  destruct (strip_with_spec isspace t) as (pre & post & Heq & _).
  fold (strip t) in Heq.
  assert (Hm : Forall (fun c => spec_illegal c = false) (strip t)).
  { rewrite Heq in Ht. apply Forall_app in Ht as [_ Ht].
    by apply Forall_app in Ht as [Ht _]. }
  split; [|split; [|split]].
  - eapply Forall_impl; [exact Hm|]. intros c Hc. by rewrite illegal_chars_matches.
  - intros Hin. rewrite Forall_forall in Hm. by specialize (Hm _ Hin).
  - assert (length t = length s) as <- by (subst t; apply length_map).
    rewrite Heq at 2. rewrite !length_app. lia.
  - rewrite sub_illegal_chars, spec_replace_id by done.
    unfold strip. apply strip_with_idem.
Qed.

End SanitizeMore.

(** ** Where a download is written ([utils.get_url_data], [downloader.download]) *)

Section FinalPath.





End FinalPath.

(** ** The requests of the CDN probe ([utils.get_cdn_file_url]) *)

(** Projections of a trace after one more event. *)
Ltac trace_simpl :=
  cbn [emit emits trace fs fst snd];
  unfold gets_of, sleeps_of, appends_of;
  rewrite ?omap_app; cbn [omap list_omap app]; rewrite ?app_nil_r.

Section ProbeRequests.

Variable session : Session.
Variable gallery_url : str.
Variable file_name : option str.

Local Abbreviation cands := (candidates gallery_url file_name).

Lemma cdn_loop_requests (hosts : list str) (w : World) :
  let run := Utils.cdn_loop session hosts gallery_url file_name w in
  fs (snd run) = fs w
  /\ sleeps_of (trace (snd run)) = sleeps_of (trace w)
  /\ exists k : nat,
      (k <= length hosts)%nat
      /\ gets_of (trace (snd run)) = gets_of (trace w) ++ take k (cands hosts)
      /\ forall u,
          fst run = Ok (Some u) ->
          last (take k (cands hosts)) = Some u
          /\ exists history response,
              session history u = Ok response /\ status_code response = 200.
Proof.
  revert w. induction hosts as [|cdn rest IH]; intros w; cbn zeta.
  - split; [done|]. split; [done|]. exists 0%nat.
    split; [done|]. split; [by rewrite app_nil_r | done].
  - destruct (Utils.url_to_test cdn gallery_url file_name) as [u0|] eqn:Hu.
    2:{ cbn [Utils.cdn_loop]. rewrite Hu. run_monad.
        split; [done|]. split; [by trace_simpl|]. exists 0%nat.
        split; [cbn; lia|]. split; [by trace_simpl | done]. }
    assert (Hc : cands (cdn :: rest) = u0 :: cands rest)
      by (unfold candidates; cbn; by rewrite Hu).
    rewrite (cdn_loop_step session gallery_url file_name cdn rest u0 w Hu), Hc.
    specialize (IH (emit (EvGet u0) w)). cbn zeta in IH.
    destruct IH as (Hfs & Hsl & k & Hk & Hg & Hres).
    assert (Hnext :
      fs (snd (Utils.cdn_loop session rest gallery_url file_name
                 (emit (EvGet u0) w))) = fs w
      /\ sleeps_of (trace (snd (Utils.cdn_loop session rest gallery_url
                                  file_name (emit (EvGet u0) w))))
         = sleeps_of (trace w)
      /\ exists k0 : nat,
          (k0 <= length (cdn :: rest))%nat
          /\ gets_of (trace (snd (Utils.cdn_loop session rest gallery_url
                                    file_name (emit (EvGet u0) w))))
             = gets_of (trace w) ++ take k0 (u0 :: cands rest)
          /\ forall u,
              fst (Utils.cdn_loop session rest gallery_url file_name
                     (emit (EvGet u0) w)) = Ok (Some u) ->
              last (take k0 (u0 :: cands rest)) = Some u
              /\ exists history response,
                  session history u = Ok response
                  /\ status_code response = 200).
    { split; [by rewrite Hfs|]. split; [rewrite Hsl; by trace_simpl|].
      exists (S k). split; [cbn; lia|]. split.
      - rewrite Hg. trace_simpl. by rewrite <- app_assoc.
      - intros u Hu'. destruct (Hres u Hu') as [Hlast Hans].
        split; [|done]. cbn [take]. rewrite last_cons, Hlast. done. }
    assert (Hstop : forall r : result (option str), forall evs : list event,
      (forall u, r = Ok (Some u) ->
         evs = [] /\ u = u0 /\ exists history response,
           session history u = Ok response /\ status_code response = 200) ->
      sleeps_of evs = [] -> gets_of evs = [] ->
      fs (emits (EvGet u0 :: evs) w) = fs w
      /\ sleeps_of (trace (emits (EvGet u0 :: evs) w)) = sleeps_of (trace w)
      /\ exists k0 : nat,
          (k0 <= length (cdn :: rest))%nat
          /\ gets_of (trace (emits (EvGet u0 :: evs) w))
             = gets_of (trace w) ++ take k0 (u0 :: cands rest)
          /\ forall u,
              r = Ok (Some u) ->
              last (take k0 (u0 :: cands rest)) = Some u
              /\ exists history response,
                  session history u = Ok response
                  /\ status_code response = 200).
    { intros r evs Hr Hs Hgs. split; [done|].
      split.
      { cbn [emits trace]. unfold sleeps_of in *.
        rewrite omap_app. cbn [omap list_omap]. rewrite Hs. by rewrite app_nil_r. }
      exists 1%nat. split; [cbn; lia|]. split.
      { cbn [emits trace]. unfold gets_of in *.
        rewrite omap_app. cbn [omap list_omap]. by rewrite Hgs. }
      intros u Hu'. destruct (Hr u Hu') as (_ & -> & Hans). by split. }
    destruct (session (trace w) u0) as [response|e] eqn:Hans.
    + destruct (status_code response =? 200) eqn:H200.
      * apply (Hstop (Ok (Some u0)) []); [|done|done].
        intros u [= <-]. split; [done|]. split; [done|].
        exists (trace w), response. split; [done|]. by apply Z.eqb_eq.
      * destruct (status_code response =? 404); [exact Hnext|].
        destruct (status_code response =? 403);
          cbn [fst snd]; by apply (Hstop (Ok None)).
    + destruct (is_RequestException e); [exact Hnext|].
      by apply (Hstop (Raise e) []).
Qed.

End ProbeRequests.

(** X5: whatever the session answers, the probe changes no file, never sleeps,
    and requests the candidates of the hosts in list order, at most one per
    host; a URL that it returns is the last one it requested, and the session
    answered it with 200. *)
Theorem get_cdn_file_url_requests (session : Session)
    (cdn_list : option (list str)) (gallery_url : str)
    (file_name : option str) (w : World) :
  let run := Utils.get_cdn_file_url session cdn_list gallery_url file_name w in
  let hosts := default [] cdn_list in
  fs (snd run) = fs w
  /\ sleeps_of (trace (snd run)) = sleeps_of (trace w)
  /\ exists k : nat,
      (k <= length hosts)%nat
      /\ gets_of (trace (snd run))
         = gets_of (trace w) ++ take k (candidates gallery_url file_name hosts)
      /\ forall u,
          fst run = Ok (Some u) ->
          last (take k (candidates gallery_url file_name hosts)) = Some u
          /\ exists history response,
              session history u = Ok response /\ status_code response = 200.
Proof.
  destruct cdn_list as [[|cdn rest]|]; cbn zeta; cbn [default from_option id].
  - unfold Utils.get_cdn_file_url. run_monad.
    split; [done|]. split; [by trace_simpl|]. exists 0%nat.
    split; [done|]. split; [by trace_simpl | done].
  - apply cdn_loop_requests.
  - unfold Utils.get_cdn_file_url. run_monad.
    split; [done|]. split; [by trace_simpl|]. exists 0%nat.
    split; [done|]. split; [by trace_simpl | done].
Qed.

(** ** The resolvers ([url_handler.py]) *)

Section KeepsFiles.

Lemma keeps_files_ret {A} (a : A) : keeps_files (mret a).
Proof. by intros w. Qed.

Lemma keeps_files_raise {A} (e : exn) : keeps_files (@raise A e).
Proof. by intros w. Qed.

Lemma keeps_files_bind {A B} (m : M A) (f : A -> M B) :
  keeps_files m -> (forall a, keeps_files (f a)) -> keeps_files (m ≫= f).
Proof.
  intros Hm Hf w. unfold mbind, M_bind. specialize (Hm w).
  destruct (m w) as [[a|e] w1]; cbn [snd] in *; [|done].
  by rewrite Hf.
Qed.

Lemma keeps_files_catch {A} (m : M A) : keeps_files m -> keeps_files (catch m).
Proof. intros Hm w. unfold catch. specialize (Hm w). by destruct (m w). Qed.

Lemma keeps_files_print (line : str) : keeps_files (print line).
Proof. by intros w. Qed.

Lemma keeps_files_sleep (seconds : Z) : keeps_files (sleep seconds).
Proof. by intros w. Qed.

Lemma keeps_files_session_get (session : Session) (url : str) :
  keeps_files (session_get session url).
Proof. by intros w. Qed.

End KeepsFiles.

Create HintDb keeps_files.
#[local] Hint Resolve keeps_files_ret keeps_files_raise keeps_files_print
  keeps_files_sleep keeps_files_session_get keeps_files_catch : keeps_files.

Ltac keeps_files_step :=
  first
    [ apply keeps_files_bind; [|intros ?]
    | progress auto with keeps_files
    | match goal with
      | |- keeps_files (match ?x with _ => _ end) => destruct x
      | |- keeps_files (if ?b then _ else _) => destruct b
      end ].

Section Resolvers.
Import UrlHandler.

Lemma keeps_files_get_cdn_file_url (session : Session)
    (cdn_list : option (list str)) (gallery_url : str)
    (file_name : option str) :
  keeps_files (Utils.get_cdn_file_url session cdn_list gallery_url file_name).
Proof.
  intros w. unfold Utils.get_cdn_file_url.
  destruct cdn_list as [[|cdn rest]|]; try done.
  apply (cdn_loop_requests session gallery_url file_name (cdn :: rest) w).
Qed.

Lemma keeps_files_get_real_download_url (handler : URLHandler)
    (session : Session) (cdn_list : option (list str)) (url : str) :
  keeps_files (get_real_download_url handler session cdn_list url).
Proof.
  destruct handler; cbn [get_real_download_url].
  - unfold bunkr_get_real_download_url.
    apply keeps_files_bind; [auto with keeps_files|]. intros response.
    destruct (negb _); [repeat keeps_files_step|].
    destruct (first_media _ _); [auto with keeps_files|].
    destruct (soup_find _ _ _); [|auto with keeps_files].
    apply keeps_files_bind;
      [apply keeps_files_get_cdn_file_url | auto with keeps_files].
  - unfold cyberdrop_get_real_download_url. repeat keeps_files_step.
Qed.

Lemma replace_go_absent (sub new s : str) (i : Z) :
  0 <= i -> find_from sub s i < 0 -> replace_go sub new s 0 = s.
Proof.
  revert i. induction s as [|c s IH]; intros i Hi Hfind; [done|].
  cbn [find_from replace_go] in *.
  destruct (startswith sub (c :: s)); [lia|].
  f_equal. apply (IH (i + 1)); [lia | done].
Qed.

Lemma replace_absent (sub new s : str) :
  contains sub s = false -> replace sub new s = s.
Proof.
  unfold contains, find. intros Hc. apply Z.leb_gt in Hc.
  destruct sub as [|c sub]; [by destruct s|].
  unfold replace. by apply (replace_go_absent _ _ _ 0).
Qed.

(** X6: the cyberdrop resolver makes exactly one request, to the URL with every
    [/f/] replaced by [/api/f/] (the URL itself when it holds none), and changes
    no file.  It returns an item exactly when the answer is a 200 whose JSON
    object has a [url]: the item carries that URL, the size [-1] and the [name]
    when the object has one.  A 200 whose object has no [url] raises [KeyError],
    and an exception of the request is passed on: neither is caught. *)
Theorem cyberdrop_resolution (session : Session) (cdn_list : option (list str))
    (url : str) (w : World) :
  let api_url := replace (py "/f/") (py "/api/f/") url in
  let run := cyberdrop_get_real_download_url session cdn_list url w in
  gets_of (trace (snd run)) = gets_of (trace w) ++ [api_url]
  /\ fs (snd run) = fs w
  /\ (contains (py "/f/") url = false -> api_url = url)
  /\ (forall item,
        fst run = Ok (Some item)
        <-> exists response fields u,
            session (trace w) api_url = Ok response
            /\ status_code response = 200
            /\ resp_json response = Ok (JObject fields)
            /\ lookup_attr (py "url") fields = Some u
            /\ item = {| item_url := u; item_size := Some (-1);
                         item_name := lookup_attr (py "name") fields |})
  /\ (forall response fields,
        session (trace w) api_url = Ok response ->
        status_code response = 200 ->
        resp_json response = Ok (JObject fields) ->
        lookup_attr (py "url") fields = None ->
        run = (Raise (Exn KeyError (py "'url'")), emit (EvGet api_url) w))
  /\ (forall e,
        session (trace w) api_url = Raise e ->
        run = (Raise e, emit (EvGet api_url) w)).
Proof.
  intros api_url run.
  assert (Hrun : run
    = match session (trace w) api_url with
      | Raise e => (Raise e, emit (EvGet api_url) w)
      | Ok response =>
          if negb (status_code response =? 200) then
            (Ok None,
             emit (EvPrint ([9%N] ++ py "[-] HTTP error "
                            ++ of_Z (status_code response)
                            ++ py " while resolving " ++ url))
               (emit (EvGet api_url) w))
          else
            match resp_json response with
            | Raise e =>
                if is_JSONDecodeError e then
                  (Ok None,
                   emit (EvPrint ([9%N] ++ py "[-] JSON decoding error: "
                                  ++ exn_msg e))
                     (emit (EvGet api_url) w))
                else (Raise e, emit (EvGet api_url) w)
            | Ok (JObject fields) =>
                match lookup_attr (py "url") fields with
                | Some u =>
                    (Ok (Some {| item_url := u; item_size := Some (-1);
                                 item_name := lookup_attr (py "name") fields |}),
                     emit (EvGet api_url) w)
                | None =>
                    (Raise (Exn KeyError (py "'url'")), emit (EvGet api_url) w)
                end
            | Ok JNotObject =>
                (Raise (Exn TypeError (py "indices must be integers")),
                 emit (EvGet api_url) w)
            end
      end).
  { subst run. unfold cyberdrop_get_real_download_url. fold api_url. run_monad.
    destruct (session (trace w) api_url) as [response|e]; [|done].
    destruct (negb _); [done|].
    destruct (resp_json response) as [[fields|]|e]; try done.
    - by destruct (lookup_attr (py "url") fields).
    - by destruct (is_JSONDecodeError e). }
  split; [|split; [|split; [|split; [|split]]]].
  - rewrite Hrun.
    destruct (session (trace w) api_url) as [response|e]; [|by trace_simpl].
    destruct (negb _); [by trace_simpl|].
    destruct (resp_json response) as [[fields|]|e]; try (by trace_simpl).
    + destruct (lookup_attr (py "url") fields); by trace_simpl.
    + destruct (is_JSONDecodeError e); by trace_simpl.
  - rewrite Hrun.
    destruct (session (trace w) api_url) as [response|e]; [|done].
    destruct (negb _); [done|].
    destruct (resp_json response) as [[fields|]|e]; try done.
    + by destruct (lookup_attr (py "url") fields).
    + by destruct (is_JSONDecodeError e).
  - apply replace_absent.
  - intros item. rewrite Hrun. split.
    + destruct (session (trace w) api_url) as [response|e] eqn:Hget; [|done].
      destruct (status_code response =? 200) eqn:Hcode; [|done].
      cbn [negb]. apply Z.eqb_eq in Hcode.
      destruct (resp_json response) as [[fields|]|e] eqn:Hjson; try done.
      * destruct (lookup_attr (py "url") fields) as [u|] eqn:Hu; [|done].
        intros [= <-]. by exists response, fields, u.
      * by destruct (is_JSONDecodeError e).
    + intros (response & fields & u & -> & Hcode & -> & -> & ->).
      by rewrite Hcode.
  - intros response fields Hget Hcode Hjson Hnone.
    by rewrite Hrun, Hget, Hcode, Hjson, Hnone.
  - intros e Hget. by rewrite Hrun, Hget.
Qed.

Lemma cyberdrop_resolution_witness :
  cyberdrop_get_real_download_url (album_session []) None
    (py "https://cyberdrop.me/f/one") world0
  = (Raise (Exn KeyError (py "'url'")),
     emit (EvGet (py "https://cyberdrop.me/api/f/one")) world0).
Proof.
  destruct (cyberdrop_resolution (album_session []) None
              (py "https://cyberdrop.me/f/one") world0)
    as (_ & _ & _ & _ & Hkey & _).
  apply (Hkey (api_response []) []); reflexivity.
Defined.

End Resolvers.

Section BunkrRequests.
Import UrlHandler.

Lemma startswith_prefix (p x : str) : startswith p (p ++ x) = true.
Proof.
  induction p as [|a p IH]; [by destruct x|]. cbn. by rewrite N.eqb_refl, IH.
Qed.

Lemma candidates_https (gallery_url : str) (file_name : option str)
    (hosts : list str) :
  Forall (fun u => startswith (py "https://") u = true)
    (candidates gallery_url file_name hosts).
Proof.
  unfold candidates. induction hosts as [|cdn rest IH]; [constructor|].
  cbn [omap list_omap].
  destruct (Utils.url_to_test cdn gallery_url file_name) as [u|] eqn:Hu; [|done].
  constructor; [|done].
  assert (Hc : exists path, u = candidate path cdn).
  { unfold Utils.url_to_test in Hu. cbn zeta in Hu.
    destruct file_name as [name|].
    - exists name. unfold candidate. congruence.
    - destruct (_ =? _); [done|].
      exists (slice_from gallery_url (find (py "/d/") gallery_url + 3)).
      unfold candidate. congruence. }
  destruct Hc as [path ->].
  apply (startswith_prefix (py "https://")).
Qed.

Lemma complete_url_https (url : str) :
  startswith (py "https") (complete_url url) = true.
Proof.
  unfold complete_url. destruct (startswith (py "https") url) eqn:E; [done|].
  cbn [negb]. apply (startswith_prefix (py "https") (py "://bunkr.sk" ++ url)).
Qed.

(** X7: the bunkr resolver completes a URL that does not start with [https] with
    the bunkr host, so the page it requests always starts with [https] (and
    completing twice changes nothing); the only other requests it makes are CDN
    candidates, at most one per host; it changes no file; an exception of the
    page request is passed on, not caught. *)
Theorem bunkr_resolver_requests (session : Session)
    (cdn_list : option (list str)) (url : str) (w : World) :
  let run := bunkr_get_real_download_url session cdn_list url w in
  startswith (py "https") (complete_url url) = true
  /\ complete_url (complete_url url) = complete_url url
  /\ fs (snd run) = fs w
  /\ (exists probes,
        gets_of (trace (snd run))
        = gets_of (trace w) ++ complete_url url :: probes
        /\ Forall (fun u => startswith (py "https://") u = true) probes
        /\ (length probes <= length (default [] cdn_list))%nat)
  /\ (forall e,
        session (trace w) (complete_url url) = Raise e ->
        run = (Raise e, emit (EvGet (complete_url url)) w)).
Proof.
  intros run. pose proof (complete_url_https url) as Hhttps.
  split; [done|]. split.
  { unfold complete_url at 1. by rewrite Hhttps. }
  split.
  { apply (keeps_files_get_real_download_url BunkrURLHandler). }
  split.
  2:{ intros e He. subst run. unfold bunkr_get_real_download_url. run_monad.
      by rewrite He. }
  subst run. unfold bunkr_get_real_download_url.
  fold (complete_url url). run_monad.
  set (page_url := complete_url url).
  destruct (session (trace w) page_url) as [response|e].
  2:{ exists []. split; [by trace_simpl|]. split; [constructor | cbn; lia]. }
  destruct (negb _).
  { exists []. split; [by trace_simpl|]. split; [constructor | cbn; lia]. }
  destruct (first_media _ _).
  { exists []. split; [by trace_simpl|]. split; [constructor | cbn; lia]. }
  destruct (soup_find _ _ _).
  2:{ exists []. split; [by trace_simpl|]. split; [constructor | cbn; lia]. }
  assert (Hprobe :
    exists k : nat,
      (k <= length (default [] cdn_list))%nat
      /\ gets_of (trace (snd (Utils.get_cdn_file_url session cdn_list page_url
                                None (emit (EvGet page_url) w))))
         = gets_of (trace (emit (EvGet page_url) w))
           ++ take k (candidates page_url None (default [] cdn_list))).
  { unfold Utils.get_cdn_file_url.
    destruct cdn_list as [[|cdn rest]|]; cbn [default from_option id].
    - exists 0%nat. split; [done|]. run_monad. by trace_simpl.
    - destruct (cdn_loop_requests session page_url None (cdn :: rest)
                  (emit (EvGet page_url) w)) as (_ & _ & k & Hk & Hg & _).
      by exists k.
    - exists 0%nat. split; [done|]. run_monad. by trace_simpl. }
  destruct Hprobe as (k & Hk & Hg).
  exists (take k (candidates page_url None (default [] cdn_list))).
  split; [|split].
  - destruct (Utils.get_cdn_file_url _ _ _ _ _) as [[r|e] w2]; cbn [snd] in *;
      rewrite Hg; trace_simpl; by rewrite <- app_assoc.
  - apply Forall_take, candidates_https.
  - rewrite length_take. lia.
Qed.

End BunkrRequests.

(** ** More on downloads ([downloader.download], [download_with_retries]) *)

Section DownloadMore.
Import Downloader.

Lemma download_refused (session : Session) (item_url download_path : str)
    (is_bunkr : bool) (file_name : option str) (w : World) (e : exn) :
  session (trace w) item_url = Raise e ->
  download session item_url download_path is_bunkr file_name w
  = (Raise e, emit (EvGet item_url) w).
Proof. intros He. unfold download. run_monad. by rewrite He. Qed.

Lemma download_http_error (session : Session) (item_url download_path : str)
    (is_bunkr : bool) (file_name : option str) (w : World) (response : Response) :
  session (trace w) item_url = Ok response ->
  status_code response <> 200 ->
  download session item_url download_path is_bunkr file_name w
  = (Ok tt,
     emits [EvGet item_url;
            EvPrint (status_message (status_code response)
                       (target_name item_url file_name))] w).
Proof.
  intros Hget Hcode. unfold download. run_monad. rewrite Hget.
  apply Z.eqb_neq in Hcode. rewrite Hcode. cbn [negb].
  unfold emit. by rewrite emits_emits.
Qed.

Lemma download_maintenance (session : Session) (item_url download_path : str)
    (is_bunkr : bool) (file_name : option str) (w : World) (response : Response) :
  session (trace w) item_url = Ok response ->
  status_code response = 200 ->
  resp_url response = maintenance_url ->
  download session item_url download_path is_bunkr file_name w
  = (Ok tt,
     emits [EvGet item_url;
            EvPrint (maintenance_message (target_name item_url file_name))] w).
Proof.
  intros Hget Hcode Hurl. unfold download. run_monad. rewrite Hget, Hcode.
  cbn [Z.eqb Pos.eqb negb]. unfold Py.eqb.
  rewrite bool_decide_eq_true_2 by done.
  unfold emit. by rewrite emits_emits.
Qed.

(** X8: an HTTP error status and the maintenance redirect are not retried: with
    any number of attempts allowed, the task makes one request, prints the
    reason and returns; no file is touched and there is no sleep. *)
Theorem download_http_error_not_retried (session : Session) (task : Task)
    (download_path : str) (cdn_list : option (list str)) (w : World)
    (response : Response) :
  let url := task_url task in
  let r := task_retries task in
  let name := target_name url (task_name task) in
  1 <= r ->
  session (trace (emit (EvPrint (attempt_message url 1 r)) w)) url = Ok response ->
  (status_code response <> 200 ->
   download_with_retries session task download_path cdn_list w
   = (Ok tt,
      emits [EvPrint (attempt_message url 1 r); EvGet url;
             EvPrint (status_message (status_code response) name)] w))
  /\ (status_code response = 200 ->
      resp_url response = maintenance_url ->
      download_with_retries session task download_path cdn_list w
      = (Ok tt,
         emits [EvPrint (attempt_message url 1 r); EvGet url;
                EvPrint (maintenance_message name)] w)).
Proof.
  intros url r name Hr Hget. unfold download_with_retries. fold url. fold r.
  rewrite seqZ_cons by lia. rewrite retry_loop_step.
  split.
  - intros Hcode. rewrite (download_http_error _ _ _ _ _ _ _ Hget Hcode).
    by rewrite emits_cons.
  - intros Hcode Hurl.
    rewrite (download_maintenance _ _ _ _ _ _ _ Hget Hcode Hurl).
    by rewrite emits_cons.
Qed.

Lemma download_http_error_not_retried_witness :
  download_with_retries probe_session
    {| task_url := py "https://c1.bunkr.ru/clip.mp4"; task_name := None;
       task_is_bunkr := true; task_retries := 10 |}
    (py "downloads/album") None world0
  = (Ok tt,
     emits [EvPrint (attempt_message (py "https://c1.bunkr.ru/clip.mp4") 1 10);
            EvGet (py "https://c1.bunkr.ru/clip.mp4");
            EvPrint (status_message 404 (py "clip.mp4"))] world0).
Proof.
  refine (proj1 (download_http_error_not_retried probe_session
                   {| task_url := py "https://c1.bunkr.ru/clip.mp4";
                      task_name := None; task_is_bunkr := true;
                      task_retries := 10 |}
                   (py "downloads/album") None world0 (page 404 []) _ _) _);
    [by vm_compute | reflexivity | by vm_compute].
Defined.

Section Exhausted.

Variable session : Session.
Variables url download_path : str.
Variable is_bunkr : bool.
Variable file_name : option str.
Variable retries : Z.
Hypothesis Hrefused : always session url transport_failure.

Lemma retry_loop_exhausted (len : nat) (k : Z) (w : World) :
  (1 <= len)%nat ->
  k + Z.of_nat len = retries + 1 ->
  let run :=
    retry_loop session url download_path is_bunkr file_name retries
      (seqZ k (Z.of_nat len)) w in
  fst run = Ok tt
  /\ fs (snd run) = fs w
  /\ gets_of (trace (snd run)) = gets_of (trace w) ++ List.repeat url len
  /\ sleeps_of (trace (snd run))
     = sleeps_of (trace w) ++ List.repeat 2 (len - 1)
  /\ appends_of (trace (snd run)) = appends_of (trace w)
  /\ exists e,
      is_RequestException e = true
      /\ last (trace (snd run)) = Some (EvPrint (failed_message url retries e)).
Proof.
  revert k w. induction len as [|len IH]; intros k w Hlen Hk; [lia|].
  cbn zeta. rewrite seqZ_cons by lia.
  replace (Z.pred (Z.of_nat (S len))) with (Z.of_nat len) by lia.
  rewrite retry_loop_step.
  set (w1 := emit (EvPrint (attempt_message url k retries)) w).
  pose proof (Hrefused (trace w1)) as Hans. unfold transport_failure in Hans.
  destruct (session (trace w1) url) as [response|e] eqn:Hget; [done|].
  rewrite (download_refused _ _ _ _ _ _ _ Hget), Hans.
  destruct (k <? retries) eqn:Hlast.
  - apply Z.ltb_lt in Hlast.
    destruct (IH (Z.succ k) (emit (EvSleep 2) (emit (EvGet url) w1)))
      as (Hok & Hfs & Hg & Hs & Ha & Hfinal); [lia | lia |].
    split; [done|]. split; [by rewrite Hfs|].
    split; [rewrite Hg; subst w1; trace_simpl; by rewrite <- app_assoc|].
    split.
    { rewrite Hs. subst w1. trace_simpl. rewrite <- app_assoc.
      f_equal. destruct len as [|len']; [lia|]. cbn. by rewrite Nat.sub_0_r. }
    split; [rewrite Ha; subst w1; by trace_simpl | done].
  - apply Z.ltb_ge in Hlast. assert (len = 0%nat) as -> by lia.
    cbn [Z.of_nat]. rewrite seqZ_nil by lia. cbn [retry_loop].
    unfold mret, M_ret. cbn [fst snd].
    split; [done|]. split; [done|].
    split; [subst w1; by trace_simpl|].
    split; [subst w1; by trace_simpl|].
    split; [subst w1; by trace_simpl|].
    exists e. split; [done|]. cbn [emit emits trace]. apply last_snoc.
Qed.

End Exhausted.

(** X9: when every request for the URL fails with a transport error, a task with
    [r >= 1] attempts makes exactly [r] requests with [r - 1] sleeps of 2
    between them, prints the final failure last and returns; no file is touched
    and nothing is appended to the ledger. *)
Theorem download_with_retries_exhausted (session : Session) (task : Task)
    (download_path : str) (cdn_list : option (list str)) (w : World) :
  let url := task_url task in
  let r := task_retries task in
  1 <= r ->
  always session url transport_failure ->
  let run := download_with_retries session task download_path cdn_list w in
  fst run = Ok tt
  /\ fs (snd run) = fs w
  /\ gets_of (trace (snd run))
     = gets_of (trace w) ++ List.repeat url (Z.to_nat r)
  /\ sleeps_of (trace (snd run))
     = sleeps_of (trace w) ++ List.repeat 2 (Z.to_nat r - 1)
  /\ appends_of (trace (snd run)) = appends_of (trace w)
  /\ exists e,
      is_RequestException e = true
      /\ last (trace (snd run)) = Some (EvPrint (failed_message url r e)).
Proof.
  intros url r Hr Hrefused run. subst run. unfold download_with_retries.
  fold url. fold r.
  pose proof (retry_loop_exhausted session url download_path
                (task_is_bunkr task) (task_name task) r Hrefused
                (Z.to_nat r) 1 w) as Hrun.
  cbn zeta in Hrun. rewrite Z2Nat.id in Hrun by lia.
  apply Hrun; lia.
Qed.

Lemma download_with_retries_exhausted_witness :
  let run :=
    download_with_retries (static_session (fun _ => Raise connection_error))
      (clip_task 3) (py "downloads/album") None world0 in
  fst run = Ok tt
  /\ fs (snd run) = fs world0
  /\ gets_of (trace (snd run))
     = List.repeat (py "https://cdn.example/clip.mp4") 3
  /\ sleeps_of (trace (snd run)) = [2; 2].
Proof.
  cbn zeta.
  destruct (download_with_retries_exhausted
              (static_session (fun _ => Raise connection_error))
              (clip_task 3) (py "downloads/album") None world0)
    as (Hok & Hfs & Hg & Hs & _); [by vm_compute | by intros history |].
  by repeat split.
Defined.

End DownloadMore.

Section DownloadFiles.
Import Downloader.

(** [download] changes files at two paths at most. *)
Lemma download_frame (session : Session) (item_url download_path : str)
    (is_bunkr : bool) (file_name : option str) (w : World) (p : list N) :
  p <> final_path_of download_path item_url file_name ->
  p <> Utils.ledger_path download_path ->
  fs (snd (download session item_url download_path is_bunkr file_name w)) !! p
  = fs w !! p.
Proof.
  intros Hfinal Hledger. unfold final_path_of in Hfinal.
  destruct (session (trace w) item_url) as [response|e] eqn:Hget.
  2:{ by rewrite (download_refused _ _ _ _ _ _ _ Hget). }
  destruct (decide (status_code response = 200)) as [Hcode|Hcode].
  2:{ by rewrite (download_http_error _ _ _ _ _ _ _ Hget Hcode). }
  destruct (decide (resp_url response = maintenance_url)) as [Hmaint|Hmaint].
  { by rewrite (download_maintenance _ _ _ _ _ _ _ Hget Hcode Hmaint). }
  rewrite (download_run _ _ _ _ _ _ _ Hget Hcode Hmaint).
  destruct (resp_stream_error response).
  { cbn [snd after_transfer fs]. by rewrite lookup_insert_ne. }
  destruct (_ && _).
  { cbn [snd emit emits after_transfer fs]. by rewrite lookup_insert_ne. }
  rewrite mark_as_downloaded_run. cbn [snd after_transfer fs].
  by rewrite !lookup_insert_ne.
Qed.

Lemma retry_loop_frame (session : Session) (url download_path : str)
    (is_bunkr : bool) (file_name : option str) (retries : Z)
    (attempts : list Z) (w : World) (p : list N) :
  p <> final_path_of download_path url file_name ->
  p <> Utils.ledger_path download_path ->
  fs (snd (retry_loop session url download_path is_bunkr file_name retries
             attempts w)) !! p
  = fs w !! p.
Proof.
  intros Hfinal Hledger. revert w.
  induction attempts as [|k rest IH]; intros w; [done|].
  rewrite retry_loop_step.
  pose proof (download_frame session url download_path is_bunkr file_name
                (emit (EvPrint (attempt_message url k retries)) w) p
                Hfinal Hledger) as Hd.
  destruct (download _ _ _ _ _ _) as [[[]|e] w2]; cbn [snd] in *; [done|].
  destruct (is_RequestException e); [|done].
  rewrite IH. by destruct (k <? retries).
Qed.

(** X10: the worker pool changes no file other than the targets of its tasks and
    the ledger of the download directory. *)
Theorem run_tasks_frame (session : Session) (download_path : str)
    (cdn_list : option (list str)) (tasks : list Task) (w : World)
    (p : list N) :
  Forall (fun task =>
            p <> final_path_of download_path (task_url task) (task_name task))
    tasks ->
  p <> Utils.ledger_path download_path ->
  fs (snd (run_tasks session download_path cdn_list tasks w)) !! p = fs w !! p.
Proof.
  intros Htasks Hledger. revert w.
  induction Htasks as [|task rest Htask _ IH]; intros w; [done|].
  cbn [run_tasks]. run_monad. unfold download_with_retries.
  pose proof (retry_loop_frame session (task_url task) download_path
                (task_is_bunkr task) (task_name task) (task_retries task)
                (seqZ 1 (task_retries task)) w p Htask Hledger) as Hd.
  destruct (retry_loop _ _ _ _ _ _ _ _) as [[[]|e] w1]; cbn [snd] in *;
    by rewrite IH.
Qed.

Lemma run_tasks_frame_witness :
  fs (snd (run_tasks flaky_session (py "downloads/album") None
             [clip_task 3] world0))
    !! Utils.url_list_path (py "downloads/album")
  = None.
Proof.
  refine (eq_trans
            (run_tasks_frame flaky_session (py "downloads/album") None
               [clip_task 3] world0
               (Utils.url_list_path (py "downloads/album")) _ _) _).
  - constructor; [by vm_compute | constructor].
  - by vm_compute.
  - reflexivity.
Defined.



End DownloadFiles.

(** ** The extension allow-list ([downloader.process_url]) *)

Section AllowList.
Import Downloader.

Lemma split_go_comma (s cur : list N) :
  44%N ∉ cur ->
  length (split_go [44%N] s 0 cur)
  = S (length (List.filter (fun c => (44 =? c)%N) s))
  /\ Forall (fun part => 44%N ∉ part) (split_go [44%N] s 0 cur).
Proof.
  revert cur. induction s as [|x s IH]; intros cur Hcur.
  - cbn. split; [done|]. constructor; [|constructor].
    intros Hin. apply Hcur. by apply list_elem_of_In, in_rev, list_elem_of_In.
  - cbn [split_go startswith length Nat.sub List.filter].
    rewrite andb_true_r. destruct (N.eqb_spec 44 x) as [<-|Hne].
    + destruct (IH [] (not_elem_of_nil _)) as [Hlen Hall].
      cbn [length]. split; [by rewrite Hlen|].
      constructor; [|done].
      intros Hin. apply Hcur. by apply list_elem_of_In, in_rev, list_elem_of_In.
    + apply IH. by apply not_elem_of_cons.
Qed.

(** X12: the allow-list has no entry exactly when the option is the empty
    string; otherwise it has one entry more than the string has commas, so that
    a string of blanks or a trailing comma gives an empty entry; an entry has no
    comma and no whitespace at either end. *)
Theorem extensions_list_entries (extensions : str) :
  let entries := extensions_list_of extensions in
  (entries = [] <-> extensions = [])
  /\ (extensions <> [] ->
      length entries
      = S (length (List.filter (fun c => (44 =? c)%N) extensions)))
  /\ Forall (fun entry => strip entry = entry /\ 44%N ∉ entry) entries.
Proof.
  cbn zeta. unfold extensions_list_of, split. change (py ",") with [44%N].
  destruct extensions as [|c extensions]; [by repeat split|].
  destruct (split_go_comma (c :: extensions) [] (not_elem_of_nil _))
    as [Hlen Hall].
  split; [|split].
  - split; [|done]. intros Hnil. apply (f_equal length) in Hnil.
    rewrite length_map, Hlen in Hnil. done.
  - intros _. by rewrite length_map.
  - apply Forall_forall. intros entry Hin.
    apply list_elem_of_In, in_map_iff in Hin as (part & <- & Hpart).
    split; [apply strip_with_idem|].
    rewrite Forall_forall in Hall. apply list_elem_of_In, Hall in Hpart.
    destruct (strip_with_spec isspace part) as (pre & post & Heq & _).
    fold (strip part) in Heq. intros Hin. apply Hpart. rewrite Heq.
    apply elem_of_app. right. apply elem_of_app. by left.
Qed.

Lemma extensions_list_entries_witness :
  length (extensions_list_of (py ".jpg, .png,")) = 3%nat.
Proof.
  destruct (extensions_list_entries (py ".jpg, .png,")) as (_ & Hlen & _).
  rewrite Hlen; [reflexivity | discriminate].
Defined.

End AllowList.

(** ** What [process_url] appends ([downloader.process_url]) *)

Section ProcessAppends.
Import UrlHandler Downloader.

Lemma process_url_refused (session : Session) (cdn_list : option (list str))
    (url : str) (retries : Z) (extensions : str) (only_export : bool)
    (custom_path : option str) (w : World) (e : exn) :
  session (trace w) url = Raise e ->
  process_url session cdn_list url retries extensions only_export custom_path w
  = (Raise e, emit (EvGet url) w).
Proof. intros He. unfold process_url. run_monad. by rewrite He. Qed.

Lemma process_url_http_error (session : Session) (cdn_list : option (list str))
    (url : str) (retries : Z) (extensions : str) (only_export : bool)
    (custom_path : option str) (w : World) (response : Response) :
  session (trace w) url = Ok response ->
  status_code response <> 200 ->
  process_url session cdn_list url retries extensions only_export custom_path w
  = (Ok tt,
     emits [EvGet url;
            EvPrint (py "[-] HTTP error " ++ of_Z (status_code response)
                     ++ py " for " ++ url)] w).
Proof.
  intros Hget Hcode. unfold process_url. run_monad. rewrite Hget.
  apply Z.eqb_neq in Hcode. rewrite Hcode. cbn [negb].
  unfold emit. by rewrite emits_emits.
Qed.

(** X13: a gallery page that cannot be fetched: a status other than 200 is
    printed and [process_url] returns after that one request, with no file
    touched; an exception of the request is passed on to the caller. *)
Theorem process_url_fetch_failure (session : Session)
    (cdn_list : option (list str)) (url : str) (retries : Z)
    (extensions : str) (only_export : bool) (custom_path : option str)
    (w : World) :
  let run :=
    process_url session cdn_list url retries extensions only_export
      custom_path w in
  (forall e, session (trace w) url = Raise e ->
             run = (Raise e, emit (EvGet url) w))
  /\ (forall response,
        session (trace w) url = Ok response ->
        status_code response <> 200 ->
        run = (Ok tt,
               emits [EvGet url;
                      EvPrint (py "[-] HTTP error "
                               ++ of_Z (status_code response)
                               ++ py " for " ++ url)] w)).
Proof.
  split; intros; [by apply process_url_refused | by apply process_url_http_error].
Qed.

Lemma process_url_fetch_failure_witness :
  process_url probe_session None (py "https://c1.bunkr.ru/clip.mp4") 10 []
    false None world0
  = (Ok tt,
     emits [EvGet (py "https://c1.bunkr.ru/clip.mp4");
            EvPrint (py "[-] HTTP error 404 for https://c1.bunkr.ru/clip.mp4")]
       world0).
Proof.
  refine (proj2 (process_url_fetch_failure probe_session None
                   (py "https://c1.bunkr.ru/clip.mp4") 10 [] false None world0)
            (page 404 []) _ _);
    [reflexivity | by vm_compute].
Defined.

Lemma quiet_appends_one_file (only_export : bool) {A} (m : M A) :
  quiet m -> appends_one_file only_export m.
Proof.
  intros Hm w. exists [], []. rewrite Hm, app_nil_r. split; [done | constructor].
Qed.

Lemma bind_appends_one_file (only_export : bool) {A B} (m : M A) (f : A -> M B) :
  quiet m -> (forall a, appends_one_file only_export (f a)) ->
  appends_one_file only_export (m ≫= f).
Proof.
  intros Hm Hf w. unfold mbind, M_bind. specialize (Hm w).
  destruct (m w) as [[a|e] w1]; cbn [snd] in *.
  - destruct (Hf a w1) as (dp & entries & Happ & Hall).
    exists dp, entries. by rewrite Happ, Hm.
  - exists [], []. rewrite Hm, app_nil_r. split; [done | constructor].
Qed.

Lemma quiet_isfile (path : str) : quiet (isfile path).
Proof. by intros w. Qed.

Lemma quiet_file_create (path : str) : quiet (file_create path).
Proof.
  intros w. unfold file_create, appends_of. cbn. rewrite omap_app. cbn.
  by rewrite app_nil_r.
Qed.

Lemma quiet_get_and_prepare (custom_path : option str) (album_name : str) :
  quiet (Utils.get_and_prepare_download_path custom_path album_name).
Proof.
  unfold Utils.get_and_prepare_download_path.
  apply quiet_bind; [apply quiet_isfile|]. intros present.
  apply quiet_bind; [|intros; apply quiet_ret].
  destruct present; [apply quiet_ret | apply quiet_file_create].
Qed.

Lemma quiet_get_already_downloaded_url (download_path : str) :
  quiet (Utils.get_already_downloaded_url download_path).
Proof. intros w. by rewrite get_already_downloaded_url_run. Qed.

Lemma quiet_link_items (prefix : str) (links : list Tag) :
  quiet (link_items prefix links).
Proof.
  induction links as [|link rest IH]; cbn [link_items]; [apply quiet_ret|].
  apply quiet_bind.
  - unfold tag_getitem. destruct (tag_get link (py "href"));
      [apply quiet_ret | apply quiet_raise].
  - intros href. apply quiet_bind; [done|]. intros; apply quiet_ret.
Qed.

Lemma retry_loop_appends (session : Session) (url download_path : str)
    (is_bunkr : bool) (file_name : option str) (retries : Z)
    (attempts : list Z) (w : World) :
  exists entries,
    appends_of (trace (snd (retry_loop session url download_path is_bunkr
                              file_name retries attempts w)))
    = appends_of (trace w) ++ entries
    /\ Forall (fun entry : str * list N =>
                 fst entry = Utils.ledger_path download_path) entries.
Proof.
  revert w. induction attempts as [|k rest IH]; intros w.
  - exists []. cbn. rewrite app_nil_r. split; [done | constructor].
  - rewrite retry_loop_step.
    destruct (download_events session url download_path is_bunkr file_name
                (emit (EvPrint (attempt_message url k retries)) w))
      as (new & Htrace & _ & _ & Happ).
    assert (Hnew : Forall (fun entry : str * list N =>
                             fst entry = Utils.ledger_path download_path)
                     (appends_of new)).
    { destruct Happ as [-> | [-> _]]; [constructor|].
      constructor; [done | constructor]. }
    clear Happ.
    destruct (download _ _ _ _ _ _) as [[[]|e] w2]; cbn [snd] in *.
    + exists (appends_of new). split; [|done]. rewrite Htrace.
      unfold appends_of. cbn [emit emits trace]. rewrite !omap_app. cbn.
      by rewrite app_nil_r.
    + assert (Hw2 : appends_of (trace w2) = appends_of (trace w) ++ appends_of new).
      { rewrite Htrace. unfold appends_of. cbn [emit emits trace].
        rewrite !omap_app. cbn. by rewrite app_nil_r. }
      destruct (is_RequestException e).
      * destruct (IH (if k <? retries then emit (EvSleep 2) w2
                      else emit (EvPrint (failed_message url retries e)) w2))
          as (entries & Hrest & Hall).
        exists (appends_of new ++ entries). split; [|by apply Forall_app].
        rewrite Hrest.
        assert (appends_of (trace (if k <? retries then emit (EvSleep 2) w2
                                   else emit (EvPrint (failed_message url retries e)) w2))
                = appends_of (trace w2)) as ->.
        { destruct (k <? retries); unfold appends_of; cbn [emit emits trace];
            rewrite omap_app; cbn; by rewrite app_nil_r. }
        by rewrite Hw2, app_assoc.
      * exists (appends_of new). split; [|done].
        unfold appends_of in *. cbn [snd emit emits trace].
        rewrite omap_app. cbn. by rewrite app_nil_r.
Qed.

Lemma run_tasks_appends (session : Session) (download_path : str)
    (cdn_list : option (list str)) (tasks : list Task) (w : World) :
  exists entries,
    appends_of (trace (snd (run_tasks session download_path cdn_list tasks w)))
    = appends_of (trace w) ++ entries
    /\ Forall (fun entry : str * list N =>
                 fst entry = Utils.ledger_path download_path) entries.
Proof.
  revert w. induction tasks as [|task rest IH]; intros w.
  - exists []. cbn. rewrite app_nil_r. split; [done | constructor].
  - cbn [run_tasks]. run_monad. unfold download_with_retries.
    destruct (retry_loop_appends session (task_url task) download_path
                (task_is_bunkr task) (task_name task) (task_retries task)
                (seqZ 1 (task_retries task)) w) as (first & Hfirst & Hall1).
    destruct (retry_loop _ _ _ _ _ _ _ _) as [[[]|e] w1]; cbn [snd] in *.
    + destruct (IH w1) as (entries & Hrest & Hall).
      exists (first ++ entries). split; [|by apply Forall_app].
      by rewrite Hrest, Hfirst, app_assoc.
    + destruct (IH (emit (EvPrint ([9%N] ++ py "[-] Error processing "
                                   ++ task_url task ++ py ": " ++ exn_msg e)) w1))
        as (entries & Hrest & Hall).
      exists (first ++ entries). split; [|by apply Forall_app].
      rewrite Hrest. unfold appends_of in *. cbn [emit emits trace].
      rewrite omap_app. cbn. by rewrite app_nil_r, Hfirst, app_assoc.
Qed.

(** X14: in export mode [process_url] appends only to the URL list of the
    download directory and never marks the ledger; otherwise it appends only to
    the ledger of the download directory and never writes the URL list. *)
Theorem process_url_appends (session : Session) (cdn_list : option (list str))
    (url : str) (retries : Z) (extensions : str) (only_export : bool)
    (custom_path : option str) (w : World) :
  exists download_path entries,
    appends_of (trace (snd (process_url session cdn_list url retries
                              extensions only_export custom_path w)))
    = appends_of (trace w) ++ entries
    /\ Forall (fun entry : str * list N =>
                 fst entry = if only_export
                             then Utils.url_list_path download_path
                             else Utils.ledger_path download_path) entries.
Proof.
  revert w. change (appends_one_file only_export
                      (process_url session cdn_list url retries extensions
                         only_export custom_path)).
  unfold process_url.
  apply bind_appends_one_file; [apply quiet_session_get|]. intros response.
  destruct (negb _); [apply quiet_appends_one_file, quiet_print|].
  apply bind_appends_one_file.
  { destruct (contains _ _).
    - destruct (_ || _).
      + apply quiet_bind; [apply quiet_get_real_download_url|].
        intros [item|]; [apply quiet_ret | apply quiet_raise].
      + apply quiet_bind; [apply quiet_link_items | intros; apply quiet_ret].
    - apply quiet_bind; [apply quiet_link_items | intros; apply quiet_ret]. }
  intros [[direct_link album_name] items].
  apply bind_appends_one_file; [apply quiet_get_and_prepare|].
  intros download_path.
  apply bind_appends_one_file; [apply quiet_get_already_downloaded_url|].
  intros already_downloaded w1.
  exists download_path. unfold mbind, M_bind.
  destruct (process_items_kept session cdn_list
              (get_url_handler (contains (py "| Bunkr")
                 match soup_find (resp_soup response) (py "title") NoFilter with
                 | Some t => tag_text t
                 | None => []
                 end))
              direct_link
              (contains (py "| Bunkr")
                 match soup_find (resp_soup response) (py "title") NoFilter with
                 | Some t => tag_text t
                 | None => []
                 end)
              only_export retries download_path
              (extensions_list_of extensions) already_downloaded items [] w1)
    as (kept & _ & Happ & Htasks).
  destruct (process_items _ _ _ _ _ _ _ _ _ _ _ _ _) as [[tasks|e] w2];
    cbn [fst snd] in *.
  2:{ eexists. split; [exact Happ|]. destruct only_export; [|constructor].
      apply Forall_forall. intros entry Hin.
      by apply list_elem_of_In, in_map_iff in Hin as (it & <- & _). }
  specialize (Htasks tasks eq_refl).
  destruct only_export.
  - eexists. split.
    + unfold print. cbn [snd emit emits trace]. unfold appends_of in *.
      rewrite omap_app. cbn. rewrite app_nil_r. exact Happ.
    + apply Forall_forall. intros entry Hin.
      by apply list_elem_of_In, in_map_iff in Hin as (it & <- & _).
  - rewrite app_nil_r in Happ.
    destruct tasks as [|task rest].
    + exists []. run_monad. unfold appends_of in *. cbn [snd emit emits trace].
      rewrite omap_app. cbn. rewrite !app_nil_r. split; [done | constructor].
    + destruct (run_tasks_appends session download_path cdn_list (task :: rest) w2)
        as (entries & Hrun & Hall).
      exists entries. split; [|done].
      pose proof (run_tasks_returns session download_path cdn_list
                    (task :: rest) w2) as Hok.
      destruct (run_tasks _ _ _ _ _) as [[[]|e] w3]; cbn [fst snd] in *; [|done].
      unfold print. cbn [snd emit emits trace]. unfold appends_of in *.
      rewrite omap_app. cbn. rewrite app_nil_r. by rewrite Hrun, Happ.
Qed.

End ProcessAppends.

(** ** The entry point ([main.main]) and the status page *)

Section MainProgram.
Import Network Downloader Main.

Local Abbreviation status_url := (py "https://status.bunkr.ru/").

Lemma get_cdn_list_run (session : Session) (w : World) :
  fs (snd (get_cdn_list session w)) = fs w
  /\ gets_of (trace (snd (get_cdn_list session w)))
     = gets_of (trace w) ++ [status_url].
Proof.
  unfold get_cdn_list. run_monad.
  destruct (session (trace w) status_url) as [response|e]; cbn [fst snd].
  - destruct (negb _); cbn [fst snd emit emits fs trace]; (split; [done|]);
      unfold gets_of; rewrite ?omap_app; cbn; by rewrite ?app_nil_r.
  - cbn [emit emits fs trace]. split; [done|].
    unfold gets_of. rewrite omap_app. by cbn.
Qed.

(** X15: [main] leaves through [sys.exit(1)] in three cases only: no input, both
    inputs, and a URL file that does not exist.  In each of them the last line
    printed names the error, no file is changed and no gallery is requested: the
    first two make no request at all, the third only that of the status page. *)
Theorem main_exit_status (session : Session) (args : Args) (w : World) :
  fst (main session args w) = Ok (Some 1) ->
  fs (snd (main session args w)) = fs w
  /\ exists message,
       last (trace (snd (main session args w))) = Some (EvPrint message)
       /\ ((arg_u args = None /\ arg_f args = None
            /\ message = no_input_message
            /\ gets_of (trace (snd (main session args w))) = gets_of (trace w))
           \/ (is_Some (arg_u args) /\ is_Some (arg_f args)
               /\ message = both_inputs_message
               /\ gets_of (trace (snd (main session args w)))
                  = gets_of (trace w))
           \/ (exists f,
                 arg_u args = None /\ arg_f args = Some f
                 /\ fs w !! f = None
                 /\ message = missing_file_message f
                 /\ gets_of (trace (snd (main session args w)))
                    = gets_of (trace w) ++ [status_url])).
Proof.
  unfold main.
  destruct (arg_u args) as [u|] eqn:Hu, (arg_f args) as [f|] eqn:Hf.
  - intros _. run_monad. cbn [fst snd emit emits fs trace].
    split; [done|]. exists both_inputs_message.
    split; [by rewrite last_snoc|]. right; left.
    repeat split; try by eexists.
    unfold gets_of. rewrite omap_app. cbn. by rewrite app_nil_r.
  - run_monad. destruct (get_cdn_list session w) as [[cdn_list|e] w1];
      [|done]. destruct (process_url _ _ _ _ _ _ _ _) as [[[]|e] w2]; done.
  - pose proof (get_cdn_list_run session w) as [Hfs Hgets].
    destruct f as [|c f].
    { run_monad. by destruct (get_cdn_list session w) as [[cdn_list|e] w1]. }
    run_monad. destruct (get_cdn_list session w) as [[cdn_list|e] w1];
      cbn [fst snd] in *; [|done].
    unfold isfile. case_bool_decide as Hfile; cbn [negb fst snd].
    + destruct Hfile as [data Hfile]. unfold file_read.
      match goal with
      | |- context [match ?x with Some _ => _ | None => _ end] =>
          let Hx := fresh in
          assert (Hx : x = Some data) by exact Hfile; rewrite Hx
      end.
      by destruct (process_urls _ _ _ _ _) as [[[]|e] w2].
    + intros _. cbn [emit emits fs trace]. split; [done|].
      exists (missing_file_message (c :: f)).
      split; [by rewrite last_snoc|]. right; right. exists (c :: f).
      repeat split.
      * rewrite <- Hfs. by apply eq_None_not_Some.
      * unfold gets_of in *. rewrite omap_app. cbn. by rewrite app_nil_r.
  - intros _. run_monad. cbn [fst snd emit emits fs trace].
    split; [done|]. exists no_input_message.
    split; [by rewrite last_snoc|]. left. repeat split.
    unfold gets_of. rewrite omap_app. cbn. by rewrite app_nil_r.
Qed.

Lemma main_exit_status_witness :
  fs (snd (main status_session
             {| arg_u := None; arg_f := Some (py "urls.txt"); arg_r := 10;
                arg_e := []; arg_p := None; arg_w := false |} world0))
  = fs world0.
Proof.
  refine (proj1 (main_exit_status status_session
                   {| arg_u := None; arg_f := Some (py "urls.txt");
                      arg_r := 10; arg_e := []; arg_p := None;
                      arg_w := false |} world0 _)).
  by vm_compute.
Defined.

(** X16: the loop of [main] over the URLs of a file has no handler: once the
    URLs before it have been processed, a URL whose processing raises ends the
    loop with that exception, and the URLs after it are never looked at. *)
Theorem process_urls_stops_at_exception (session : Session)
    (cdn_list : option (list str)) (args : Args) (before after : list str)
    (url : str) (e : exn) (w w1 w2 : World) :
  process_urls session cdn_list args before w = (Ok tt, w1) ->
  process_url session cdn_list url (arg_r args) (arg_e args) (arg_w args)
    (arg_p args) (emit (EvPrint (processing_message url)) w1)
  = (Raise e, w2) ->
  process_urls session cdn_list args (before ++ url :: after) w
  = (Raise e, w2).
Proof.
  revert w. induction before as [|first rest IH]; intros w Hbefore Hurl.
  - cbn in Hbefore. injection Hbefore as <-.
    cbn [app process_urls]. run_monad. by rewrite Hurl.
  - cbn [app process_urls] in *. revert Hbefore. run_monad.
    destruct (process_url _ _ first _ _ _ _ _) as [[[]|e1] w3]; [|done].
    intros Hbefore. by apply IH.
Qed.

Lemma process_urls_stops_at_exception_witness :
  fst (process_urls (album_session []) (Some [])
         {| arg_u := None; arg_f := Some (py "urls.txt"); arg_r := 3;
            arg_e := []; arg_p := None; arg_w := false |}
         ([] ++ py "https://cyberdrop.me/a/holiday"
             :: [py "https://cyberdrop.me/a/holiday"]) world0)
  = Raise (Exn KeyError (py "'url'")).
Proof.
  refine (f_equal fst
            (process_urls_stops_at_exception (album_session []) (Some [])
               {| arg_u := None; arg_f := Some (py "urls.txt"); arg_r := 3;
                  arg_e := []; arg_p := None; arg_w := false |}
               [] [py "https://cyberdrop.me/a/holiday"]
               (py "https://cyberdrop.me/a/holiday")
               (Exn KeyError (py "'url'")) world0 world0
               (snd (process_url (album_session []) (Some [])
                       (py "https://cyberdrop.me/a/holiday") 3 [] false None
                       (emit (EvPrint (processing_message
                                         (py "https://cyberdrop.me/a/holiday")))
                          world0)))
               _ _));
    [reflexivity | by vm_compute].
Defined.

(** X17: a status page that lists at most five entries gives the empty host
    list, and with it a resolution through the hosts gives nothing, after no
    request of its own. *)
Theorem get_cdn_list_short_page (session : Session) (w : World)
    (response : Response) (gallery_url : str) (file_name : option str) :
  session (trace w) status_url = Ok response ->
  status_code response = 200 ->
  (length (soup_find_all (resp_soup response) (py "p") (ByClass (py "flex-1")))
   <= 5)%nat ->
  get_cdn_list session w = (Ok (Some []), emit (EvGet status_url) w)
  /\ (cdn_list ← get_cdn_list session;
      Utils.get_cdn_file_url session cdn_list gallery_url file_name) w
     = (Ok None,
        emits [EvGet status_url;
               EvPrint (Utils.no_list_message gallery_url)] w).
Proof.
  intros Hget Hcode Hlen.
  assert (Hlist : get_cdn_list session w
                  = (Ok (Some []), emit (EvGet status_url) w)).
  { unfold get_cdn_list. run_monad. rewrite Hget, Hcode. cbn [Z.eqb negb].
    change (200 =? 200) with true. cbn [negb].
    rewrite cdn_names_enumerate. cbn [app].
    change (Z.to_nat (5 - 1)) with 4%nat.
    rewrite drop_drop. by rewrite drop_ge by lia. }
  split; [done|]. unfold mbind at 1, M_bind. rewrite Hlist.
  cbn [Utils.get_cdn_file_url]. run_monad. unfold emit.
  by rewrite emits_emits.
Qed.

Lemma get_cdn_list_short_page_witness :
  get_cdn_list
    (static_session (fun _ => Ok (page 200 (take 5 status_entries)))) world0
  = (Ok (Some []), emit (EvGet status_url) world0).
Proof.
  refine (proj1 (get_cdn_list_short_page
                   (static_session
                      (fun _ => Ok (page 200 (take 5 status_entries))))
                   world0 (page 200 (take 5 status_entries)) [] None _ _ _));
    [reflexivity | reflexivity | vm_compute; lia].
Defined.

End MainProgram.
